(** * game/runner.py: the Server/Portal process runner

    A shallow embedding of [game/runner.py].  The runner is sequential
    Python code with side effects on the file system, on standard output
    and on the processes and threads it starts, so every function of the
    module is embedded as a computation in a small state-and-exception
    monad over a [world].  The world holds the files, the module globals
    [SERVER] and [PORTAL], the completion queue of [start_services], the
    waiter threads that are alive and a log of every primitive call the
    runner made, in program order.  A result is a value, a Python
    exception, or [Blocks] when the runner waits for ever.

    What is outside the module is an input of the model:
    - the Django settings and the platform ([os.name], [os.path.join])
      form a record [Settings];
    - [parser.parse_args()] is library code, [main] is embedded from the
      point where it has returned [options] and [args];
    - the children ([twistd] processes) are driven by a schedule: a list
      saying which child terminates next, how, and which files it wrote
      before terminating; the main thread handles the event of a child
      before the next child terminates;
    - which files cannot be opened for writing, which cannot be removed or
      renamed, and whether starting the daemon fails, are fields of the
      world that never change;
    - [_] (gettext) is the identity, [int(rc)] is [rc]. *)

From Stdlib Require Import ZArith.
From stdpp Require Import gmap strings list fin_maps.

Open Scope Z_scope.

Module Runner.

(** ** Settings and module constants *)

(** [SRC_DIR], [SERVER_LOG_FILE], [PORTAL_LOG_FILE] and [HTTP_LOG_FILE]
    are the Django settings the module reads.  [os_name] and
    [os_path_join] are the platform: [os.name], and [os.path.join] on two
    components, which is [posixpath.join] or [ntpath.join]. *)
Record Settings := {
  SRC_DIR : string;
  SERVER_LOG_FILE : string;
  PORTAL_LOG_FILE : string;
  HTTP_LOG_FILE : string;
  os_name : string;
  os_path_join : string → string → string
}.

Definition SERVER_PIDFILE : string := "server.pid".
Definition PORTAL_PIDFILE : string := "portal.pid".

Definition SERVER_RESTART : string := "server.restart".
Definition PORTAL_RESTART : string := "portal.restart".

Definition nl : string := String (Ascii.ascii_of_nat 10) "".

(** ** Python values the runner relies on *)

(** [str.strip()]: leading and trailing whitespace removed. *)
Fixpoint lstrip (s : string) : string :=
  match s with
  | String c s' => if Ascii.is_space c then lstrip s' else s
  | EmptyString => EmptyString
  end.

Definition rstrip (s : string) : string := String.rev (lstrip (String.rev s)).

Definition strip (s : string) : string := rstrip (lstrip s).

(** [posixpath.join(a, b)], the [os.path.join] of a POSIX platform. *)
Definition slash : Ascii.ascii := Ascii.ascii_of_nat 47.

Fixpoint ends_with_slash (s : string) : bool :=
  match s with
  | EmptyString => false
  | String c EmptyString => bool_decide (c = slash)
  | String _ s' => ends_with_slash s'
  end.

Definition starts_with_slash (s : string) : bool :=
  match s with
  | String c _ => bool_decide (c = slash)
  | EmptyString => false
  end.

Definition posixpath_join (a b : string) : string :=
  if starts_with_slash b then b
  else if bool_decide (a = "") || ends_with_slash a then a +:+ b
  else a +:+ "/" +:+ b.

(** [str(flag)] for a boolean. *)
Definition str_bool (flag : bool) : string := if flag then "True" else "False".

(** Truth value of a string-or-None, as in [if pid]. *)
Definition truthy_str (v : option string) : bool :=
  match v with
  | None => false
  | Some s => negb (bool_decide (s = ""))
  end.

(** Truth value of a list-or-None, as in [if server_argv]. *)
Definition truthy_list {A} (v : option (list A)) : bool :=
  match v with
  | None | Some [] => false
  | Some (_ :: _) => true
  end.

(** [del l[i]] with Python's negative indices; [None] stands for IndexError. *)
Definition py_index {A} (l : list A) (i : Z) : option nat :=
  let n := Z.of_nat (length l) in
  if bool_decide (0 <= i < n) then Some (Z.to_nat i)
  else if bool_decide (- n <= i < 0) then Some (Z.to_nat (n + i))
  else None.

Definition py_del {A} (l : list A) (i : Z) : option (list A) :=
  (λ k, delete k l) <$> py_index l i.

(** [l[i] = x]. *)
Definition py_setitem {A} (l : list A) (i : Z) (x : A) : option (list A) :=
  (λ k, <[k:=x]> l) <$> py_index l i.

(** ** The world *)

(** The exceptions met.  [IOError path]: [path] could not be opened.
    [OSError what]: an error of the operating system; [what] is the path
    when a file operation raises it, and the text of the error when
    [Popen] does. *)
Inductive exn :=
| IOError (path : string)
| OSError (what : string)
| IndexError
| UnboundLocalError (var : string)
| SystemExit (code : option Z).

(** Exit status of the interpreter when [SystemExit] reaches the top:
    [sys.exit()] without argument is status 0. *)
Definition exit_status (code : option Z) : Z := default 0 code.

(** The two closures of [start_services]. *)
Inductive waiter := server_waiter | portal_waiter.

Global Instance waiter_eq_dec : EqDecision waiter.
Proof. solve_decision. Defined.

(** What the globals [SERVER] and [PORTAL] can hold: a thread identifier
    (a non-zero integer, hence true) or a [Popen] object. *)
Inductive handle :=
| ThreadIdent (w : waiter)
| PopenObject (argv : list string).

(** Every primitive call of the runner, logged in program order.  A call
    made by a waiter thread is logged under [InThread]. *)
Inductive effect :=
| Print (s : string)
| PrintHelp
| PathExists (p : string)
| ReadFile (p : string)
| WriteFile (p s : string)
| Remove (p : string)
| Rename (src dst : string)
| StartThread (w : waiter)
| Popen (argv : option (list string))
| QueuePut (message : string) (rc : Z)
| QueueGet (message : string) (rc : Z)
| ThreadDied (e : exn)
| InThread (w : waiter) (e : effect).

(** [files]: path to content.  [unwritable]: the paths on which
    [open(path, 'w')] raises [IOError].  [immovable]: the paths that
    [os.remove] and [os.rename] refuse with an [OSError] although they
    exist (a directory, a permission that is missing).  [daemon_error]:
    what [Popen] raises when the Portal daemon is started, if anything.
    [threads]: the waiter threads started and not yet finished. *)
Record world := World {
  files : gmap string string;
  unwritable : gset string;
  immovable : gset string;
  daemon_error : option exn;
  SERVER : option handle;
  PORTAL : option handle;
  queue : list (string * Z);
  threads : list waiter;
  out : list effect
}.

Definition with_files (f : gmap string string) (w : world) : world :=
  World f (unwritable w) (immovable w) (daemon_error w) (SERVER w) (PORTAL w) (queue w) (threads w) (out w).
Definition with_SERVER (h : option handle) (w : world) : world :=
  World (files w) (unwritable w) (immovable w) (daemon_error w) h (PORTAL w) (queue w) (threads w) (out w).
Definition with_PORTAL (h : option handle) (w : world) : world :=
  World (files w) (unwritable w) (immovable w) (daemon_error w) (SERVER w) h (queue w) (threads w) (out w).
Definition with_queue (q : list (string * Z)) (w : world) : world :=
  World (files w) (unwritable w) (immovable w) (daemon_error w) (SERVER w) (PORTAL w) q (threads w) (out w).
Definition with_threads (t : list waiter) (w : world) : world :=
  World (files w) (unwritable w) (immovable w) (daemon_error w) (SERVER w) (PORTAL w) (queue w) t (out w).
Definition with_out (l : list effect) (w : world) : world :=
  World (files w) (unwritable w) (immovable w) (daemon_error w) (SERVER w) (PORTAL w)
        (queue w) (threads w) l.
Definition with_immovable (im : gset string) (w : world) : world :=
  World (files w) (unwritable w) im (daemon_error w) (SERVER w) (PORTAL w)
        (queue w) (threads w) (out w).
Definition emit (e : effect) (w : world) : world :=
  World (files w) (unwritable w) (immovable w) (daemon_error w) (SERVER w) (PORTAL w) (queue w) (threads w)
        (out w ++ [e]).

(** [w] with its files replaced by [f] and [l] appended to its log. *)
Definition evolve (w : world) (f : gmap string string) (l : list effect) : world :=
  World f (unwritable w) (immovable w) (daemon_error w) (SERVER w) (PORTAL w) (queue w)
        (threads w) (out w ++ l).

(** The world in which the module has just been loaded: the files [f],
    of which those in [ro] cannot be opened for writing, and the error, if
    any, that starting a daemon meets.  Every file of it can be removed
    and renamed. *)
Definition fresh_world (f : gmap string string) (ro : gset string)
  (de : option exn) : world :=
  World f ro ∅ de None None [] [] [].

(** ** The monad *)

Inductive result (A : Type) :=
| Ok (a : A)
| Raise (e : exn)
| Blocks.
Arguments Ok {A} a.
Arguments Raise {A} e.
Arguments Blocks {A}.

Definition M (A : Type) : Type := world → result A * world.

Definition run {A} (m : M A) (w : world) : result A * world := m w.

Definition ret {A} (a : A) : M A := λ w, (Ok a, w).

Definition bind {A B} (m : M A) (k : A → M B) : M B := λ w,
  match m w with
  | (Ok a, w') => k a w'
  | (Raise e, w') => (Raise e, w')
  | (Blocks, w') => (Blocks, w')
  end.

Declare Scope M_scope.
Notation "x ← y ; z" := (bind y (λ x, z))
  (at level 20, y at level 100, z at level 200, only parsing) : M_scope.
Notation "x ;; z" := (bind x (λ _, z))
  (at level 100, z at level 200, only parsing, right associativity) : M_scope.
Open Scope M_scope.

Definition raise {A} (e : exn) : M A := λ w, (Raise e, w).
Definition blocks {A} : M A := λ w, (Blocks, w).
Definition get_world : M world := λ w, (Ok w, w).
Definition modify (f : world → world) : M unit := λ w, (Ok (), f w).
Definition log (e : effect) : M unit := modify (emit e).

(** [try: body except Exception, e: handler(e)]; [SystemExit] is not an
    [Exception] and passes through. *)
Definition try_except {A} (body : M A) (handler : exn → M A) : M A := λ w,
  match body w with
  | (Raise (SystemExit c), w') => (Raise (SystemExit c), w')
  | (Raise e, w') => handler e w'
  | r => r
  end.

Definition when (b : bool) (m : M unit) : M unit := if b then m else ret ().

(** ** Primitives *)

Definition print (s : string) : M unit := log (Print s).

Definition sys_exit (code : option Z) : M unit := raise (SystemExit code).

Definition os_path_exists (p : string) : M bool :=
  log (PathExists p);;
  w ← get_world;
  ret (bool_decide (is_Some (files w !! p))).

(** [open(p, 'r').read()] *)
Definition read_file (p : string) : M string :=
  log (ReadFile p);;
  w ← get_world;
  match files w !! p with
  | Some s => ret s
  | None => raise (IOError p)
  end.

(** [f = open(p, 'w'); f.write(s); f.close()] *)
Definition write_file (p s : string) : M unit :=
  log (WriteFile p s);;
  w ← get_world;
  if bool_decide (p ∈ unwritable w) then raise (IOError p)
  else modify (with_files (<[p:=s]> (files w))).

(** ** Functions of the module *)

Definition set_restart_mode (restart_file : string) (flag : bool) : M unit :=
  write_file restart_file (str_bool flag).

Definition get_restart_mode (restart_file : string) : M bool :=
  b ← os_path_exists restart_file;
  if b then
    flag ← read_file restart_file;
    ret (bool_decide (flag = "True"))
  else ret false.

Definition get_pid (pidfile : string) : M (option string) :=
  b ← os_path_exists pidfile;
  if b then
    pid ← read_file pidfile;
    ret (Some pid)
  else ret None.

(** ** The children *)

(** How [Popen(argv).wait()] ends in a waiter thread: the child
    terminates with an exit code, or [Popen] itself raises (missing
    executable, permission denied). *)
Inductive popen_outcome :=
| Exited (rc : Z)
| PopenRaises (e : exn).

(** One step of the environment: the child of waiter [who] ends with
    [outcome], after having written (or removed, [None]) some files. *)
Record arrival := Arrival {
  who : waiter;
  outcome : popen_outcome;
  child_writes : list (string * option string)
}.

Definition apply_write (f : gmap string string) (kv : string * option string)
  : gmap string string :=
  match kv.2 with
  | Some s => <[kv.1:=s]> f
  | None => delete kv.1 f
  end.

Definition apply_writes (l : list (string * option string))
  (f : gmap string string) : gmap string string :=
  foldl apply_write f l.

(** [str(e)] as interpolated by [%(e)s] in the waiters, where [e] is
    what [Popen] raised: the text that the error carries, without the name
    of its class.  [SystemExit] is not an [Exception] and is never
    interpolated. *)
Definition exn_str (e : exn) : string :=
  match e with
  | IOError s | OSError s => s
  | IndexError => "list assignment index out of range"
  | UnboundLocalError v =>
      "local variable '" +:+ v +:+ "' referenced before assignment"
  | SystemExit _ => ""
  end.

(** [Popen(argv).wait()] *)
Definition popen_wait (argv : option (list string)) (o : popen_outcome) : M Z :=
  log (Popen argv);;
  match o with
  | Exited rc => ret rc
  | PopenRaises e => raise e
  end.

(** [Popen(argv)] without [wait], for the daemon. *)
Definition popen_nowait (argv : option (list string)) : M handle :=
  log (Popen argv);;
  w ← get_world;
  match daemon_error w with
  | Some e => raise e
  | None => ret (PopenObject (default [] argv))
  end.

(** [queue.put((message, rc))], where [rc] is a local variable that may
    still be unbound ([None]): reading it then raises. *)
Definition queue_put (message : string) (rc : option Z) : M unit :=
  match rc with
  | None => raise (UnboundLocalError "rc")
  | Some rc =>
      log (QueuePut message rc);;
      modify (λ w, with_queue (queue w ++ [(message, rc)]) w)
  end.

(** [processes.get()] when the queue is looked at: the head, if any. *)
Definition queue_get : M (option (string * Z)) :=
  w ← get_world;
  match queue w with
  | [] => ret None
  | (message, rc) :: q =>
      log (QueueGet message rc);;
      modify (with_queue q);;
      ret (Some (message, rc))
  end.

(** [thread.start_new_thread(w, (processes,))] *)
Definition start_new_thread (w : waiter) : M handle :=
  log (StartThread w);;
  modify (λ st, with_threads (threads st ++ [w]) st);;
  ret (ThreadIdent w).

(** The body of a thread of [who]: what it does is logged under
    [InThread who]; a body that raises ends its thread, and nothing
    reaches the thread that started it. *)
Definition thread_body (who : waiter) (body : M unit) : M unit := λ w,
  let (r, w') := body (with_out [] w) in
  let died := match r with Raise e => [ThreadDied e] | _ => [] end in
  (Ok (), with_out (out w ++ (InThread who <$> out w' ++ died)) w').

(** [a and b], with [b] evaluated only if [a] holds. *)
Definition and_then (a : bool) (b : M bool) : M bool :=
  if a then b else ret false.

Inductive flow := Continue | Break.

Section WithSettings.
Context (settings : Settings).

Definition SERVER_PY_FILE : string :=
  os_path_join settings (SRC_DIR settings) "server/server.py".
Definition PORTAL_PY_FILE : string :=
  os_path_join settings (SRC_DIR settings) "server/portal.py".

Definition SERVER_LOGFILE : string := SERVER_LOG_FILE settings.
Definition PORTAL_LOGFILE : string := PORTAL_LOG_FILE settings.

Definition TWISTED_BINARY : string :=
  if bool_decide (os_name settings = "nt") then "twistd.bat" else "twistd".

(** [os.remove(p)]: [OSError] when [p] does not exist or cannot be
    removed. *)
Definition os_remove (p : string) : M unit :=
  log (Remove p);;
  w ← get_world;
  match files w !! p with
  | Some _ =>
      if bool_decide (p ∈ immovable w) then raise (OSError p)
      else modify (with_files (delete p (files w)))
  | None => raise (OSError p)
  end.

(** [os.rename(src, dst)]: [OSError] when [src] does not exist, when
    [src] or [dst] cannot be moved and, on Windows, when [dst] exists
    (there is no rename-replace there); otherwise [dst] is replaced. *)
Definition os_rename (src dst : string) : M unit :=
  log (Rename src dst);;
  w ← get_world;
  match files w !! src with
  | Some s =>
      if bool_decide (src ∈ immovable w) then raise (OSError src)
      else if bool_decide (dst ∈ immovable w)
              || bool_decide (os_name settings = "nt")
                 && bool_decide (is_Some (files w !! dst))
      then raise (OSError dst)
      else modify (with_files (<[dst:=s]> (delete src (files w))))
  | None => raise (OSError src)
  end.

Definition cycle_logfile (logfile : string) : M unit :=
  let logfile_old := logfile +:+ ".old" in
  b ← os_path_exists logfile;
  when b (
    b' ← os_path_exists logfile_old;
    when b' (os_remove logfile_old);;
    os_rename logfile logfile_old);;
  let logfile := strip (HTTP_LOG_FILE settings) in
  let logfile_old := logfile +:+ ".old" in
  b ← os_path_exists logfile;
  when b (
    b' ← os_path_exists logfile_old;
    when b' (os_remove logfile_old);;
    os_rename logfile logfile_old).

(** *** start_services *)

Section StartServices.
Context (server_argv portal_argv : option (list string)).

(** The two closures, run from the moment their child ends as [o]. *)
Definition server_waiter_run (o : popen_outcome) : M unit :=
  rc ← try_except
         (rc ← popen_wait server_argv o; ret (Some rc))
         (λ e, print ("Server process error: " +:+ exn_str e);; ret None);
  queue_put "server_stopped" rc.

Definition portal_waiter_run (o : popen_outcome) : M unit :=
  rc ← try_except
         (rc ← popen_wait portal_argv o; ret (Some rc))
         (λ e, print ("Portal process error: " +:+ exn_str e);; ret None);
  queue_put "portal_stopped" rc.

Definition waiter_run (w : waiter) : popen_outcome → M unit :=
  match w with
  | server_waiter => server_waiter_run
  | portal_waiter => portal_waiter_run
  end.

(** The environment step: the child of a live waiter ends, its thread
    runs to its end.  An arrival for a waiter that is not alive cannot
    happen and is skipped. *)
Definition child_ends (a : arrival) : M unit :=
  w ← get_world;
  when (bool_decide (who a ∈ threads w)) (
    modify (λ w, with_files (apply_writes (child_writes a) (files w)) w);;
    thread_body (who a) (waiter_run (who a) (outcome a));;
    modify (λ w, with_threads (filter (λ x, x ≠ who a) (threads w)) w)).

(** The body of [while True], after [message, rc = processes.get()]. *)
Definition reload_iteration (message : string) (rc : Z) : M flow :=
  c ← and_then (bool_decide (message = "server_stopped") && bool_decide (rc = 0))
               (get_restart_mode SERVER_RESTART);
  if c then
    print "Evennia Server stopped. Restarting ...";;
    h ← start_new_thread server_waiter;
    modify (with_SERVER (Some h));;
    ret Continue
  else
    c ← and_then (bool_decide (message = "portal_stopped") && bool_decide (rc = 0))
                 (get_restart_mode PORTAL_RESTART);
    if c then
      print "Evennia Portal stopped in interactive mode. Restarting ...";;
      h ← start_new_thread portal_waiter;
      modify (with_PORTAL (Some h));;
      ret Continue
    else ret Break.

(** The reload loop against a schedule.  The main thread sits in
    [processes.get()]; it handles an event as soon as a waiter has put
    it.  When the schedule is exhausted no child ever ends again and
    [get] blocks for ever. *)
Fixpoint reload_loop (sched : list arrival) : M unit :=
  match sched with
  | [] => blocks
  | a :: sched' =>
      child_ends a;;
      ev ← queue_get;
      match ev with
      | None => reload_loop sched'
      | Some (message, rc) =>
          f ← reload_iteration message rc;
          match f with
          | Continue => reload_loop sched'
          | Break => ret ()
          end
      end
  end.

Definition start_services (sched : list arrival) : M unit :=
  modify (with_queue []);;
  when (truthy_list server_argv) (
    h ← start_new_thread server_waiter;
    modify (with_SERVER (Some h)));;
  enter ←
    (if truthy_list portal_argv then
       r ← get_restart_mode PORTAL_RESTART;
       if r then
         h ← start_new_thread portal_waiter;
         modify (with_PORTAL (Some h));;
         ret true
       else
         h ← popen_nowait portal_argv;
         modify (with_PORTAL (Some h));;
         w ← get_world;
         ret (bool_decide (is_Some (SERVER w)))
     else ret true);
  if enter then reload_loop sched else ret ().

End StartServices.

(** *** main *)

Record Options := {
  noserver : bool;
  noportal : bool;
  iserver : bool;
  iportal : bool
}.

Definition index_or_raise {A} (v : option A) : M A :=
  match v with
  | Some a => ret a
  | None => raise IndexError
  end.

(** The block under [# Server]: the argv handed to [start_services]. *)
Definition main_server (options : Options) : M (option (list string)) :=
  let server_argv := [TWISTED_BINARY;
                      "--nodaemon";
                      "--logfile=" +:+ SERVER_LOGFILE;
                      "--pidfile=" +:+ SERVER_PIDFILE;
                      "--python=" +:+ SERVER_PY_FILE] in
  pid ← get_pid SERVER_PIDFILE;
  options_noserver ←
    (if truthy_str pid && negb (noserver options) then
       print (nl +:+ "Evennia Server is already running as process "
                 +:+ default "" pid +:+ ". Not restarted.");;
       ret true
     else ret (noserver options));
  if options_noserver then ret None
  else
    set_restart_mode SERVER_RESTART true;;
    argv ← (if iserver options then
              (* don't log to server logfile *)
              argv ← index_or_raise (py_del server_argv 2);
              print (nl +:+ "Starting Evennia Server (output to stdout).");;
              ret argv
            else
              print (nl +:+ "Starting Evennia Server (output to server logfile).");;
              ret server_argv);
    cycle_logfile SERVER_LOGFILE;;
    ret (Some argv).

(** The block under [# Portal]. *)
Definition main_portal (options : Options) : M (option (list string)) :=
  let portal_argv := [TWISTED_BINARY;
                      "--logfile=" +:+ PORTAL_LOGFILE;
                      "--pidfile=" +:+ PORTAL_PIDFILE;
                      "--python=" +:+ PORTAL_PY_FILE] in
  pid ← get_pid PORTAL_PIDFILE;
  options_noportal ←
    (if truthy_str pid && negb (noportal options) then
       print (nl +:+ "Evennia Portal is already running as process "
                 +:+ default "" pid +:+ ". Not restarted.");;
       ret true
     else ret (noportal options));
  if options_noportal then ret None
  else
    argv ← (if iportal options then
              (* make portal interactive *)
              argv ← index_or_raise (py_setitem portal_argv 1 "--nodaemon");
              set_restart_mode PORTAL_RESTART true;;
              print (nl +:+ "Starting Evennia Portal in non-Daemon mode (output to stdout).");;
              ret argv
            else
              set_restart_mode PORTAL_RESTART false;;
              print (nl +:+ "Starting Evennia Portal in Daemon mode (output to portal logfile).");;
              ret portal_argv);
    cycle_logfile PORTAL_LOGFILE;;
    ret (Some argv).

(** The block under [# Windows fixes], for one argv:
    [if argv: del argv[-2]] when [os.name == 'nt']. *)
Definition windows_fix (argv : option (list string)) : M (option (list string)) :=
  if bool_decide (os_name settings = "nt") && truthy_list argv then
    argv' ← index_or_raise (py_del (default [] argv) (-2)); ret (Some argv')
  else ret argv.

(** [main], from the return of [parser.parse_args()] on. *)
Definition main (options : Options) (args : list string)
  (sched : list arrival) : M unit :=
  when (bool_decide (args = []) || negb (bool_decide (args !! 0%nat = Some "start"))) (
    (* this is so as to not be accidentally launched. *)
    log PrintHelp;;
    sys_exit None);;
  server_argv ← main_server options;
  portal_argv ← main_portal options;
  server_argv ← windows_fix server_argv;
  portal_argv ← windows_fix portal_argv;
  start_services server_argv portal_argv sched.

End WithSettings.

(** ** A sample installation, for the concrete runs below *)

Definition sample_settings : Settings := {|
  SRC_DIR := "/opt/evennia/src";
  SERVER_LOG_FILE := "logs/server.log";
  PORTAL_LOG_FILE := "logs/portal.log";
  HTTP_LOG_FILE := "logs/http_requests.log";
  os_name := "posix";
  os_path_join := posixpath_join
|}.

Definition default_options : Options := {|
  noserver := false; noportal := false; iserver := false; iportal := false
|}.

(** ** Vocabulary of the statements *)

(** What each waiter is about. *)
Definition waiter_argv (server_argv portal_argv : option (list string))
  (w : waiter) : option (list string) :=
  match w with server_waiter => server_argv | portal_waiter => portal_argv end.

Definition waiter_message (w : waiter) : string :=
  match w with
  | server_waiter => "server_stopped"
  | portal_waiter => "portal_stopped"
  end.

Definition waiter_restart_file (w : waiter) : string :=
  match w with
  | server_waiter => SERVER_RESTART
  | portal_waiter => PORTAL_RESTART
  end.

Definition waiter_notice (w : waiter) : string :=
  match w with
  | server_waiter => "Evennia Server stopped. Restarting ..."
  | portal_waiter => "Evennia Portal stopped in interactive mode. Restarting ..."
  end.

Definition waiter_error_label (w : waiter) : string :=
  match w with
  | server_waiter => "Server process error: "
  | portal_waiter => "Portal process error: "
  end.

(** When a completion event of [who] makes the loop start a new waiter:
    exit code zero and the restart flag of [who] reading True. *)
Definition relaunch_wanted (f : gmap string string) (who : waiter) (rc : Z)
  : bool :=
  bool_decide (rc = 0)
  && bool_decide (f !! waiter_restart_file who = Some "True").

(** What [get_pid] logs for [pidfile]. *)
Definition pid_probe (pidfile : string) (f : gmap string string) : list effect :=
  PathExists pidfile ::
  match f !! pidfile with Some _ => [ReadFile pidfile] | None => [] end.

(** What the blocks of [main] print and hand over. *)
Definition server_notice (pid : string) : string :=
  nl +:+ "Evennia Server is already running as process " +:+ pid
     +:+ ". Not restarted.".

Definition portal_notice (pid : string) : string :=
  nl +:+ "Evennia Portal is already running as process " +:+ pid
     +:+ ". Not restarted.".

Definition server_start_message (options : Options) : string :=
  if iserver options
  then nl +:+ "Starting Evennia Server (output to stdout)."
  else nl +:+ "Starting Evennia Server (output to server logfile).".

Definition server_argv_of settings (options : Options) : list string :=
  if iserver options
  then [TWISTED_BINARY settings; "--nodaemon";
        "--pidfile=" +:+ SERVER_PIDFILE;
        "--python=" +:+ SERVER_PY_FILE settings]
  else [TWISTED_BINARY settings; "--nodaemon";
        "--logfile=" +:+ SERVER_LOGFILE settings;
        "--pidfile=" +:+ SERVER_PIDFILE;
        "--python=" +:+ SERVER_PY_FILE settings].

Definition portal_start_message (options : Options) : string :=
  if iportal options
  then nl +:+ "Starting Evennia Portal in non-Daemon mode (output to stdout)."
  else nl +:+ "Starting Evennia Portal in Daemon mode (output to portal logfile).".

Definition portal_argv_of settings (options : Options) : list string :=
  [TWISTED_BINARY settings;
   if iportal options then "--nodaemon"
   else "--logfile=" +:+ PORTAL_LOGFILE settings;
   "--pidfile=" +:+ PORTAL_PIDFILE;
   "--python=" +:+ PORTAL_PY_FILE settings].

(** The paths a rotation of [logfile] may look at or move. *)
Definition rotation_paths (settings : Settings) (logfile : string) : list string :=
  [logfile; logfile +:+ ".old";
   strip (HTTP_LOG_FILE settings); strip (HTTP_LOG_FILE settings) +:+ ".old"].

(** Effects of a rotation: existence tests, and removals and renamings
    within [paths]. *)
Definition rotation_effect (paths : list string) (e : effect) : bool :=
  match e with
  | PathExists _ => true
  | Remove p => bool_decide (p ∈ paths)
  | Rename a b => bool_decide (a ∈ paths) && bool_decide (b ∈ paths)
  | _ => false
  end.

(** Effects of one of the blocks of [main] that precede [start_services]:
    prints, reads, the write of the restart flag [flag], a rotation. *)
Definition setup_effect (flag : string) (paths : list string) (e : effect) : bool :=
  match e with
  | Print _ | ReadFile _ => true
  | WriteFile p _ => bool_decide (p = flag)
  | _ => rotation_effect paths e
  end.

(** Effects of [start_services]: threads are started and run only for an
    argv that is set, a [Popen] on the main thread is the Portal daemon;
    no file is written, removed or renamed. *)
Definition services_effect (server_argv portal_argv : option (list string))
  (e : effect) : bool :=
  match e with
  | StartThread x | InThread x _ =>
      truthy_list (waiter_argv server_argv portal_argv x)
  | Popen argv => truthy_list portal_argv && bool_decide (argv = portal_argv)
  | QueueGet _ _ | PathExists _ | ReadFile _ | Print _ => true
  | _ => false
  end.

(** Effects of the reload loop on behalf of the waiters in [alive]. *)
Definition loop_effect (alive : list waiter) (e : effect) : bool :=
  match e with
  | StartThread x | InThread x _ => bool_decide (x ∈ alive)
  | QueueGet _ _ | PathExists _ | ReadFile _ | Print _ => true
  | _ => false
  end.

(** Effects of the main thread that change the file at [p]. *)
Definition touches (p : string) (e : effect) : bool :=
  match e with
  | WriteFile q _ | Remove q => bool_decide (q = p)
  | Rename a b => bool_decide (a = p) || bool_decide (b = p)
  | _ => false
  end.

(** Effects by which a process is started: a waiter thread, or a
    [Popen] on the main thread (the daemon). *)
Definition launches (e : effect) : bool :=
  match e with
  | StartThread _ | Popen _ => true
  | _ => false
  end.

(** Effects that start the process of [who] or belong to it: its waiter
    thread and what the thread does, and for the Portal a [Popen] on the
    main thread (the daemon). *)
Definition concerns (who : waiter) (e : effect) : bool :=
  match e with
  | StartThread x | InThread x _ => bool_decide (x = who)
  | Popen _ => bool_decide (who = portal_waiter)
  | _ => false
  end.

(** What a block of [main] leaves behind when its rotation does not
    fail: a result, new files that agree with the old ones away from the
    flag and the rotated paths, and a log of set-up effects; the block then
    raises exactly when its flag cannot be written, and has touched no
    file. *)
Definition block_summary (flag : string) (paths : list string)
  (m : M (option (list string))) (w : world) : Prop :=
  ∃ r f l, run m w = (r, evolve w f l)
    ∧ forallb (setup_effect flag paths) l = true
    ∧ (∀ q, q ≠ flag → q ∉ paths → f !! q = files w !! q)
    ∧ match r with
      | Ok _ => ∀ p s, WriteFile p s ∈ l → p ∉ unwritable w
      | Raise e => e = IOError flag ∧ flag ∈ unwritable w
      | Blocks => False
      end.

(** The part of [main] that follows the Server block. *)
Definition main_after_server settings (options : Options)
  (server_argv : option (list string)) (sched : list arrival) : M unit :=
  bind (main_portal settings options) (λ portal_argv,
  bind (windows_fix settings server_argv) (λ server_argv,
  bind (windows_fix settings portal_argv) (λ portal_argv,
  start_services server_argv portal_argv sched))).

(** Effects of that part: the set-up of the Portal and what
    [start_services] does, the Server waiter only if [server_on]. *)
Definition tail_effect settings (server_on : bool) (e : effect) : bool :=
  setup_effect PORTAL_RESTART (rotation_paths settings (PORTAL_LOGFILE settings)) e
  || match e with
     | StartThread x | InThread x _ => server_on || bool_decide (x = portal_waiter)
     | Popen _ | QueueGet _ _ => true
     | _ => false
     end.

(** The block that [cycle_logfile] runs twice, once for its argument and
    once for the HTTP log. *)
Definition rotate_block settings (logfile : string) : M unit :=
  let logfile_old := logfile +:+ ".old" in
  b ← os_path_exists logfile;
  when b (
    b' ← os_path_exists logfile_old;
    when b' (os_remove logfile_old);;
    os_rename settings logfile logfile_old).

(** ** The contract of a single rotation, as the specification words it *)

(** Modelled after the contract of [rotate(path)]: if [path] exists,
    [path.old] receives its content and [path] is gone; otherwise nothing
    changes.  It is compared with [cycle_logfile] below. *)
Definition rotate_spec (path : string) (f : gmap string string)
  : gmap string string :=
  match f !! path with
  | Some c => <[path +:+ ".old" := c]> (delete path f)
  | None => f
  end.

(** * Properties *)

Ltac munfold :=
  unfold run, set_restart_mode, get_restart_mode, get_pid, write_file,
    read_file, os_path_exists, os_remove, os_rename, when, print, sys_exit,
    log, modify, get_world, raise, blocks, bind, ret in *.

Ltac wunfold :=
  unfold evolve, emit, with_files, with_SERVER, with_PORTAL, with_queue,
    with_threads in *; cbn in *.

(** ** Strings *)

Lemma string_length_app (s t : string) :
  String.length (s +:+ t) = (String.length s + String.length t)%nat.
Proof.
  induction s as [|c s IH]; [reflexivity|].
  change (String c s +:+ t) with (String c (s +:+ t)).
  cbn [String.length]. now rewrite IH.
Qed.

Lemma string_app_inv_tail (s1 s2 t : string) :
  s1 +:+ t = s2 +:+ t → s1 = s2.
Proof.
  revert s2. induction s1 as [|c s1 IH]; intros [|d s2] H.
  - reflexivity.
  - apply (f_equal String.length) in H.
    rewrite !string_length_app in H. cbn in H. lia.
  - apply (f_equal String.length) in H.
    rewrite !string_length_app in H. cbn in H. lia.
  - change (String c (s1 +:+ t) = String d (s2 +:+ t)) in H.
    injection H as -> H. f_equal. now apply IH.
Qed.

Lemma string_app_old_neq (s : string) : s +:+ ".old" ≠ s.
Proof.
  intros H. apply (f_equal String.length) in H.
  rewrite string_length_app in H. cbn in H. lia.
Qed.

(** ** Worlds *)

Lemma evolve_evolve w f l f' l' :
  evolve (evolve w f l) f' l' = evolve w f' (l ++ l').
Proof. wunfold. by rewrite app_assoc. Qed.

(** ** Running computations step by step *)

Lemma run_bind {A B} (m : M A) (k : A → M B) (w : world) :
  run (bind m k) w =
  match run m w with
  | (Ok a, w') => run (k a) w'
  | (Raise e, w') => (Raise e, w')
  | (Blocks, w') => (Blocks, w')
  end.
Proof. reflexivity. Qed.

Lemma run_ret {A} (a : A) (w : world) : run (ret a) w = (Ok a, w).
Proof. reflexivity. Qed.

Lemma run_modify (f : world → world) (w : world) :
  run (modify f) w = (Ok (), f w).
Proof. reflexivity. Qed.

Lemma run_log (e : effect) (w : world) : run (log e) w = (Ok (), emit e w).
Proof. reflexivity. Qed.

Lemma run_print (s : string) (w : world) :
  run (print s) w = (Ok (), emit (Print s) w).
Proof. reflexivity. Qed.

Lemma run_get_world (w : world) : run get_world w = (Ok w, w).
Proof. reflexivity. Qed.

Lemma run_raise {A} (e : exn) (w : world) :
  run (raise e : M A) w = (Raise e, w).
Proof. reflexivity. Qed.

Lemma run_start_new_thread (x : waiter) (w : world) :
  run (start_new_thread x) w
  = (Ok (ThreadIdent x), with_threads (threads w ++ [x]) (emit (StartThread x) w)).
Proof. reflexivity. Qed.

(** ** RestartIntentStore: [set_restart_mode], [get_restart_mode] *)

Lemma get_restart_mode_run (name : string) (w : world) :
  run (get_restart_mode name) w =
  (Ok (bool_decide (files w !! name = Some "True")),
   evolve w (files w)
     (PathExists name ::
      match files w !! name with Some _ => [ReadFile name] | None => [] end)).
Proof.
  munfold. cbn.
  destruct (files w !! name) as [c|] eqn:E; cbn.
  - rewrite E. wunfold. rewrite <- app_assoc. do 2 f_equal.
    apply bool_decide_ext. naive_solver.
  - done.
Qed.

Lemma run_popen_nowait (argv : option (list string)) (w : world) :
  run (popen_nowait argv) w
  = match daemon_error w with
    | Some e => (Raise e, emit (Popen argv) w)
    | None => (Ok (PopenObject (default [] argv)), emit (Popen argv) w)
    end.
Proof.
  unfold popen_nowait. rewrite run_bind, run_log. cbn beta iota.
  rewrite run_bind, run_get_world. cbn beta iota. cbn [daemon_error emit].
  by destruct (daemon_error w).
Qed.

Lemma run_os_path_exists (p : string) (w : world) :
  run (os_path_exists p) w
  = (Ok (bool_decide (is_Some (files w !! p))), emit (PathExists p) w).
Proof. reflexivity. Qed.

Lemma run_os_remove (p : string) (w : world) :
  run (os_remove p) w =
  match files w !! p with
  | Some _ =>
      if bool_decide (p ∈ immovable w) then (Raise (OSError p), emit (Remove p) w)
      else (Ok (), with_files (delete p (files w)) (emit (Remove p) w))
  | None => (Raise (OSError p), emit (Remove p) w)
  end.
Proof.
  unfold os_remove. rewrite run_bind, run_log. cbn beta iota.
  rewrite run_bind, run_get_world. cbn beta iota. cbn [files immovable emit].
  destruct (files w !! p); [|done].
  by destruct (bool_decide (p ∈ immovable w)).
Qed.

Lemma run_os_rename settings (src dst : string) (w : world) :
  run (os_rename settings src dst) w =
  match files w !! src with
  | Some s =>
      if bool_decide (src ∈ immovable w)
      then (Raise (OSError src), emit (Rename src dst) w)
      else if bool_decide (dst ∈ immovable w)
              || bool_decide (os_name settings = "nt")
                 && bool_decide (is_Some (files w !! dst))
      then (Raise (OSError dst), emit (Rename src dst) w)
      else (Ok (), with_files (<[dst:=s]> (delete src (files w)))
                     (emit (Rename src dst) w))
  | None => (Raise (OSError src), emit (Rename src dst) w)
  end.
Proof.
  unfold os_rename. rewrite run_bind, run_log. cbn beta iota.
  rewrite run_bind, run_get_world. cbn beta iota. cbn [files immovable emit].
  destruct (files w !! src); [|done].
  destruct (bool_decide (src ∈ immovable w)); [done|].
  by destruct (_ || _).
Qed.

Ltac mrun :=
  repeat progress
    (rewrite ?run_bind, ?run_ret, ?run_modify, ?run_log, ?run_print,
       ?run_get_world, ?run_raise, ?run_start_new_thread,
       ?run_popen_nowait, ?get_restart_mode_run;
     cbn beta iota).

(** C7. Writing a flag and reading it back returns the flag that was
    written, the file holding the text True or False; a name without a
    flag file reads as false. *)
Theorem restart_mode_roundtrip (name : string) (b : bool) (w : world) :
  (name ∉ unwritable w →
   ∃ w', run (set_restart_mode name b) w = (Ok (), w')
         ∧ files w' !! name = Some (if b then "True" else "False")
         ∧ (run (get_restart_mode name) w').1 = Ok b)
  ∧ (files w !! name = None → (run (get_restart_mode name) w).1 = Ok false).
Proof.
  split.
  - intros Hw. eexists. split; [|split].
    + munfold. cbn. rewrite bool_decide_eq_false_2 by done. reflexivity.
    + cbn. rewrite lookup_insert_eq. by destruct b.
    + rewrite get_restart_mode_run. cbn. rewrite lookup_insert_eq.
      by destruct b.
  - intros Hn. rewrite get_restart_mode_run, Hn. done.
Qed.

Lemma restart_mode_roundtrip_witness :
  (∃ w', run (set_restart_mode "server.restart" true) (fresh_world ∅ ∅ None) = (Ok (), w')
         ∧ files w' !! "server.restart" = Some "True"
         ∧ (run (get_restart_mode "server.restart") w').1 = Ok true)
  ∧ (run (get_restart_mode "server.restart") (fresh_world ∅ ∅ None)).1 = Ok false.
Proof.
  destruct (restart_mode_roundtrip "server.restart" true (fresh_world ∅ ∅ None))
    as [H1 H2].
  split; [apply H1; cbn; set_solver | apply H2; reflexivity].
Defined.

(** ** LogRotator: [cycle_logfile] *)

Lemma cycle_logfile_blocks settings logfile :
  cycle_logfile settings logfile =
  bind (rotate_block settings logfile)
       (λ _, rotate_block settings (strip (HTTP_LOG_FILE settings))).
Proof. reflexivity. Qed.

Lemma rotate_spec_frame p f q :
  q ≠ p → q ≠ p +:+ ".old" → rotate_spec p f !! q = f !! q.
Proof.
  intros H1 H2. unfold rotate_spec. destruct (f !! p); [|done].
  rewrite lookup_insert_ne by done. by rewrite lookup_delete_ne.
Qed.

Lemma rotate_spec_absent p f : f !! p = None → rotate_spec p f = f.
Proof. intros H. unfold rotate_spec. by rewrite H. Qed.

Lemma rotate_spec_present p f c :
  f !! p = Some c →
  rotate_spec p f !! (p +:+ ".old") = Some c ∧ rotate_spec p f !! p = None.
Proof.
  intros H. unfold rotate_spec. rewrite H. split.
  - by rewrite lookup_insert_eq.
  - rewrite lookup_insert_ne by apply string_app_old_neq.
    by rewrite lookup_delete_eq.
Qed.

Lemma rename_after_remove (p : string) (c : string) (f : gmap string string) :
  <[p +:+ ".old" := c]> (delete p (delete (p +:+ ".old") f))
  = <[p +:+ ".old" := c]> (delete p f).
Proof.
  apply map_eq. intros k.
  destruct (decide (k = p +:+ ".old")) as [->|Hk].
  { by rewrite !lookup_insert_eq. }
  rewrite !lookup_insert_ne by done.
  destruct (decide (k = p)) as [->|Hp].
  { by rewrite !lookup_delete_eq. }
  by rewrite !lookup_delete_ne.
Qed.

(** One rotation block, whatever the file system does: it ends (with a
    value or an [OSError]), it leaves every file other than [p] and
    [p.old] alone, it rotates [p] when it ends with a value, and it does so
    when neither path is immovable or when [p] does not exist. *)
Lemma rotate_block_cases settings (p : string) (w : world) :
  ∃ r f l, run (rotate_block settings p) w = (r, evolve w f (PathExists p :: l))
    ∧ forallb (rotation_effect [p; p +:+ ".old"]) l = true
    ∧ (∀ q, q ≠ p → q ≠ p +:+ ".old" → f !! q = files w !! q)
    ∧ match r with
      | Ok _ => f = rotate_spec p (files w)
      | Raise e => e = OSError p ∨ e = OSError (p +:+ ".old")
      | Blocks => False
      end
    ∧ (p ∉ immovable w → p +:+ ".old" ∉ immovable w → r = Ok ())
    ∧ (files w !! p = None → r = Ok ())
    ∧ (is_Some (files w !! p) →
       p ∈ immovable w ∨ p +:+ ".old" ∈ immovable w → r ≠ Ok ()).
Proof.
  assert (Hin1 : bool_decide (p ∈ [p; p +:+ ".old"]) = true)
    by (apply bool_decide_eq_true; set_solver).
  assert (Hin2 : bool_decide (p +:+ ".old" ∈ [p; p +:+ ".old"]) = true)
    by (apply bool_decide_eq_true; set_solver).
  unfold rotate_block, rotate_spec.
  rewrite run_bind, run_os_path_exists. cbn beta iota.
  destruct (files w !! p) as [c|] eqn:Ep.
  2:{ rewrite bool_decide_eq_false_2 by (by intros [? ?]).
      cbn [when]. rewrite run_ret.
      exists (Ok ()), (files w), []. split; [done|].
      repeat (split; [done|]). by intros [? ?]. }
  rewrite bool_decide_eq_true_2 by by eexists.
  cbn [when]. rewrite run_bind, run_os_path_exists. cbn beta iota.
  cbn [files emit].
  destruct (files w !! (p +:+ ".old")) as [c'|] eqn:Eo.
  - rewrite bool_decide_eq_true_2 by by eexists.
    cbn [when]. rewrite run_bind, run_os_remove.
    cbn [files immovable emit]. rewrite Eo.
    destruct (bool_decide (p +:+ ".old" ∈ immovable w)) eqn:Hio;
      cbn beta iota.
    + apply bool_decide_eq_true in Hio.
      exists (Raise (OSError (p +:+ ".old"))), (files w),
        [PathExists (p +:+ ".old"); Remove (p +:+ ".old")].
      split; [wunfold; by rewrite <- !app_assoc|].
      split; [cbn; by rewrite Hin2|]. split; [done|]. split; [by right|].
      split; [by intros _ Hn|]. done.
    + rewrite run_os_rename. cbn [files immovable emit with_files].
      rewrite lookup_delete_ne by apply string_app_old_neq. rewrite Ep.
      destruct (bool_decide (p ∈ immovable w)) eqn:Hip.
      * apply bool_decide_eq_true in Hip.
        exists (Raise (OSError p)), (delete (p +:+ ".old") (files w)),
          [PathExists (p +:+ ".old"); Remove (p +:+ ".old");
           Rename p (p +:+ ".old")].
        split; [wunfold; by rewrite <- !app_assoc|].
        split; [cbn; by rewrite Hin1, Hin2|].
        split; [intros q _ Hq; by rewrite lookup_delete_ne|].
        split; [by left|]. split; [by intros Hn|]. done.
      * rewrite Hio, lookup_delete_eq.
        rewrite (bool_decide_eq_false_2 (is_Some None)) by (by intros [? ?]).
        rewrite andb_false_r. cbn [orb].
        exists (Ok ()), (<[p +:+ ".old" := c]> (delete p (files w))),
          [PathExists (p +:+ ".old"); Remove (p +:+ ".old");
           Rename p (p +:+ ".old")].
        split; [wunfold; by rewrite <- !app_assoc, rename_after_remove|].
        split; [cbn; by rewrite Hin1, Hin2|].
        split.
        { intros q Hq1 Hq2. rewrite lookup_insert_ne by done.
          by rewrite lookup_delete_ne. }
        repeat (split; [done|]).
        apply bool_decide_eq_false in Hip, Hio. by intros _ [?|?].
  - rewrite bool_decide_eq_false_2 by (by intros [? ?]).
    cbn [when]. rewrite run_bind, run_ret. cbn beta iota.
    rewrite run_os_rename. cbn [files immovable emit]. rewrite Ep, Eo.
    rewrite (bool_decide_eq_false_2 (is_Some None)) by (by intros [? ?]).
    rewrite andb_false_r, orb_false_r.
    destruct (bool_decide (p ∈ immovable w)) eqn:Hip.
    + apply bool_decide_eq_true in Hip.
      exists (Raise (OSError p)), (files w),
        [PathExists (p +:+ ".old"); Rename p (p +:+ ".old")].
      split; [wunfold; by rewrite <- !app_assoc|].
      split; [cbn; by rewrite Hin1, Hin2|]. split; [done|].
      split; [by left|]. split; [by intros Hn|]. done.
    + destruct (bool_decide (p +:+ ".old" ∈ immovable w)) eqn:Hio.
      * apply bool_decide_eq_true in Hio.
        exists (Raise (OSError (p +:+ ".old"))), (files w),
          [PathExists (p +:+ ".old"); Rename p (p +:+ ".old")].
        split; [wunfold; by rewrite <- !app_assoc|].
        split; [cbn; by rewrite Hin1, Hin2|]. split; [done|].
        split; [by right|]. split; [by intros _ Hn|]. done.
      * exists (Ok ()), (<[p +:+ ".old" := c]> (delete p (files w))),
          [PathExists (p +:+ ".old"); Rename p (p +:+ ".old")].
        split; [wunfold; by rewrite <- !app_assoc|].
        split; [cbn; by rewrite Hin1, Hin2|].
        split.
        { intros q Hq1 Hq2. rewrite lookup_insert_ne by done.
          by rewrite lookup_delete_ne. }
        repeat (split; [done|]).
        apply bool_decide_eq_false in Hip, Hio. by intros _ [?|?].
Qed.

Lemma rotate_block_run settings (p : string) (w : world) :
  p ∉ immovable w → p +:+ ".old" ∉ immovable w →
  ∃ l, run (rotate_block settings p) w
       = (Ok (), evolve w (rotate_spec p (files w)) (PathExists p :: l))
       ∧ forallb (rotation_effect [p; p +:+ ".old"]) l = true.
Proof.
  intros H1 H2.
  destruct (rotate_block_cases settings p w)
    as (r & f & l & Hr & Hl & _ & Hf & Hok & _).
  rewrite (Hok H1 H2) in Hr, Hf. subst f. by exists l.
Qed.

Lemma rotation_effect_mono (ps qs : list string) (e : effect) :
  ps ⊆ qs → rotation_effect ps e = true → rotation_effect qs e = true.
Proof.
  intros Hsub. destruct e; cbn; try done.
  - intros H%bool_decide_eq_true. apply bool_decide_eq_true. set_solver.
  - intros [H1%bool_decide_eq_true H2%bool_decide_eq_true]%andb_true_iff.
    apply andb_true_iff. split; apply bool_decide_eq_true; set_solver.
Qed.

Lemma forallb_rotation_effect_mono (ps qs : list string) (l : list effect) :
  ps ⊆ qs → forallb (rotation_effect ps) l = true →
  forallb (rotation_effect qs) l = true.
Proof.
  intros Hsub. rewrite !forallb_forall. intros H e He.
  eapply rotation_effect_mono; eauto.
Qed.

(** The whole of [cycle_logfile], whatever the file system does. *)
Lemma cycle_logfile_cases settings (p : string) (w : world) :
  let http := strip (HTTP_LOG_FILE settings) in
  ∃ r f l, run (cycle_logfile settings p) w = (r, evolve w f (PathExists p :: l))
    ∧ forallb (rotation_effect (rotation_paths settings p)) l = true
    ∧ (∀ q, q ∉ rotation_paths settings p → f !! q = files w !! q)
    ∧ match r with
      | Ok _ => f = rotate_spec http (rotate_spec p (files w))
      | Raise e => ∃ q, e = OSError q ∧ q ∈ rotation_paths settings p
      | Blocks => False
      end
    ∧ ((∀ q, q ∈ rotation_paths settings p → q ∉ immovable w) → r = Ok ())
    ∧ (files w !! p = None → files w !! http = None → r = Ok ()).
Proof.
  intros http. rewrite cycle_logfile_blocks, run_bind.
  destruct (rotate_block_cases settings p w)
    as (r1 & f1 & l1 & -> & Hl1 & Hfr1 & Hr1 & Hok1 & Habs1 & _).
  assert (Hl1' : forallb (rotation_effect (rotation_paths settings p)) l1 = true).
  { eapply forallb_rotation_effect_mono; [|done].
    unfold rotation_paths. set_solver. }
  assert (Hfr1' : ∀ q, q ∉ rotation_paths settings p → f1 !! q = files w !! q).
  { intros q Hq. apply Hfr1; unfold rotation_paths in Hq; set_solver. }
  destruct r1 as [[]|e|]; [| |done].
  2:{ exists (Raise e), f1, l1. split; [done|]. split; [done|].
      split; [done|]. split; [|split].
      - unfold rotation_paths. destruct Hr1 as [->| ->]; eexists;
          (split; [reflexivity|]);
          repeat (first [apply list_elem_of_here | apply list_elem_of_further]).
      - intros Hq. assert (Raise e = Ok ()) as [=].
        apply Hok1; apply Hq; unfold rotation_paths;
          repeat (first [apply list_elem_of_here | apply list_elem_of_further]).
      - intros Hp _. by specialize (Habs1 Hp). }
  subst f1. fold http.
  destruct (rotate_block_cases settings http
              (evolve w (rotate_spec p (files w)) (PathExists p :: l1)))
    as (r2 & f2 & l2 & -> & Hl2 & Hfr2 & Hr2 & Hok2 & Habs2 & _).
  cbn [files immovable evolve] in Hfr2, Hr2, Hok2, Habs2.
  exists r2, f2, (l1 ++ PathExists http :: l2).
  split; [by rewrite evolve_evolve|]. split; [|split; [|split; [|split]]].
  - rewrite forallb_app, Hl1'. cbn.
    eapply forallb_rotation_effect_mono; [|done].
    unfold rotation_paths. fold http. set_solver.
  - intros q Hq. rewrite Hfr2, Hfr1'; [done|done|..];
      unfold rotation_paths in Hq; fold http in Hq; set_solver.
  - destruct r2 as [[]|e|]; [done| |done].
    unfold rotation_paths. fold http. destruct Hr2 as [->| ->]; eexists;
      (split; [reflexivity|]);
      repeat (first [apply list_elem_of_here | apply list_elem_of_further]).
  - intros Hq. apply Hok2; apply Hq; unfold rotation_paths; fold http;
      repeat (first [apply list_elem_of_here | apply list_elem_of_further]).
  - intros Hp Hh. apply Habs2. by rewrite rotate_spec_absent.
Qed.

Lemma cycle_logfile_run settings (p : string) (w : world) :
  immovable w = ∅ →
  ∃ l, run (cycle_logfile settings p) w =
         (Ok (), evolve w (rotate_spec (strip (HTTP_LOG_FILE settings))
                            (rotate_spec p (files w))) (PathExists p :: l))
       ∧ forallb (rotation_effect (rotation_paths settings p)) l = true.
Proof.
  intros Him.
  destruct (cycle_logfile_cases settings p w)
    as (r & f & l & Hr & Hl & _ & Hf & Hok & _).
  rewrite Hok in Hr, Hf by (intros q _; rewrite Him; set_solver).
  subst f. by exists l.
Qed.

(** C5, amended.  [cycle_logfile path] rotates [path] and then the HTTP
    log.  Whether it returns or meets an [OSError], files other than
    [path], [path.old], the HTTP log and its [.old] sibling are untouched.
    When it returns, the files are those of the rotation of [path] followed
    by the rotation of the HTTP log: if [path] existed (and is not the
    [.old] sibling of the HTTP log, nor [path.old] the HTTP log itself)
    [path.old] holds the former content of [path] and [path] is gone.  When
    neither [path] nor the HTTP log exists nothing changes. *)
Theorem cycle_logfile_rotates settings (path : string) (w : world) :
  let http := strip (HTTP_LOG_FILE settings) in
  let r := run (cycle_logfile settings path) w in
  (∀ q, q ≠ path → q ≠ path +:+ ".old" → q ≠ http → q ≠ http +:+ ".old" →
        files r.2 !! q = files w !! q)
  ∧ (r.1 = Ok () →
     files r.2 = rotate_spec http (rotate_spec path (files w))
     ∧ ∀ c, files w !! path = Some c →
            path ≠ http +:+ ".old" → path +:+ ".old" ≠ http →
            files r.2 !! (path +:+ ".old") = Some c ∧ files r.2 !! path = None)
  ∧ (files w !! path = None → files w !! http = None → files r.2 = files w).
Proof.
  intros http r. subst r.
  destruct (cycle_logfile_cases settings path w)
    as (r & f & l & -> & _ & Hframe & Hr & _ & Habs).
  cbn [fst snd files evolve]. fold http in Hr, Habs. split; [|split].
  - intros q ? ? ? ?. apply Hframe. unfold rotation_paths. fold http.
    set_solver.
  - intros ->. split; [done|]. subst f. intros c Hc Hn1 Hn2.
    destruct (rotate_spec_present path (files w) c) as [Ho Hp]; [done|].
    destruct (decide (path = http)) as [->|Hne].
    + by rewrite rotate_spec_absent.
    + split.
      * rewrite rotate_spec_frame; [done|done|].
        intros E. by apply string_app_inv_tail in E.
      * by rewrite rotate_spec_frame.
  - intros Hp Hh. rewrite (Habs Hp Hh) in Hr. subst f.
    rewrite (rotate_spec_absent path) by done.
    by rewrite rotate_spec_absent.
Qed.

Lemma cycle_logfile_rotates_witness :
  let w := fresh_world {[ "a.log" := "new"; "a.log.old" := "old" ]} ∅ None in
  let r := run (cycle_logfile sample_settings "a.log") w in
  r.1 = Ok ()
  ∧ files r.2 !! "a.log.old" = Some "new" ∧ files r.2 !! "a.log" = None
  ∧ files r.2 !! "server.pid" = files w !! "server.pid"
  ∧ (let r' := run (cycle_logfile sample_settings "b.log") w in
     files r'.2 = files w).
Proof.
  intros w r.
  destruct (cycle_logfile_rotates sample_settings "a.log" w)
    as (H1 & H2 & _).
  destruct (cycle_logfile_rotates sample_settings "b.log" w)
    as (_ & _ & H5).
  assert (Hok : r.1 = Ok ()) by by vm_compute.
  split; [exact Hok|].
  destruct (H2 Hok) as [_ H4].
  destruct (H4 "new") as [Ha Hb];
    [reflexivity | by vm_compute | by vm_compute |].
  split; [exact Ha|]. split; [exact Hb|].
  split; [apply H1; by vm_compute|].
  apply H5; reflexivity.
Defined.

(** C5 as stated fails: with [a.log] absent the call is not a no-op, it
    renames the HTTP log, a file that is neither [a.log] nor [a.log.old]. *)
Lemma cycle_logfile_moves_http_log :
  let w := fresh_world {[ "logs/http_requests.log" := "requests" ]} ∅ None in
  let r := run (cycle_logfile sample_settings "a.log") w in
  files w !! "a.log" = None
  ∧ files w !! "logs/http_requests.log" = Some "requests"
  ∧ files r.2 !! "logs/http_requests.log" = None
  ∧ files r.2 !! "logs/http_requests.log.old" = Some "requests"
  ∧ files r.2 ≠ files w.
Proof.
  cbv zeta. split; [reflexivity|]. split; [reflexivity|].
  split; [by vm_compute|]. split; [by vm_compute|].
  intros E. apply (f_equal (λ f, f !! "logs/http_requests.log")) in E.
  vm_compute in E. discriminate.
Qed.

(** ** ProcessLauncher: the waiter threads *)

Ltac sunfold :=
  unfold reload_iteration, child_ends, thread_body, waiter_run,
    server_waiter_run, portal_waiter_run, try_except, popen_wait,
    popen_nowait, queue_put, queue_get, start_new_thread, and_then in *.

Lemma child_ends_exited sargv pargv (a : arrival) (rc : Z) (w : world) :
  who a ∈ threads w → outcome a = Exited rc →
  run (child_ends sargv pargv a) w =
  (Ok (),
   World (apply_writes (child_writes a) (files w)) (unwritable w)
     (immovable w) (daemon_error w) (SERVER w) (PORTAL w)
     (queue w ++ [(waiter_message (who a), rc)])
     (filter (λ x, x ≠ who a) (threads w))
     (out w ++ [InThread (who a) (Popen (waiter_argv sargv pargv (who a)));
                InThread (who a) (QueuePut (waiter_message (who a)) rc)])).
Proof.
  intros Hin Ho. sunfold. munfold. cbn.
  rewrite bool_decide_eq_true_2 by done. rewrite Ho.
  destruct (who a); reflexivity.
Qed.

Lemma child_ends_raises sargv pargv (a : arrival) (what : string) (w : world) :
  who a ∈ threads w → outcome a = PopenRaises (OSError what) →
  run (child_ends sargv pargv a) w =
  (Ok (),
   World (apply_writes (child_writes a) (files w)) (unwritable w)
     (immovable w) (daemon_error w) (SERVER w) (PORTAL w) (queue w)
     (filter (λ x, x ≠ who a) (threads w))
     (out w ++ [InThread (who a) (Popen (waiter_argv sargv pargv (who a)));
                InThread (who a)
                  (Print (waiter_error_label (who a) +:+ exn_str (OSError what)));
                InThread (who a) (ThreadDied (UnboundLocalError "rc"))])).
Proof.
  intros Hin Ho. sunfold. munfold. cbn.
  rewrite bool_decide_eq_true_2 by done. rewrite Ho.
  destruct (who a); reflexivity.
Qed.

Lemma child_ends_not_alive sargv pargv (a : arrival) (w : world) :
  who a ∉ threads w → run (child_ends sargv pargv a) w = (Ok (), w).
Proof.
  intros Hin. sunfold. munfold. cbn.
  by rewrite bool_decide_eq_false_2.
Qed.

(** C4. When [Popen] raises in a waiter, the waiter prints the error and
    then dies on the unbound [rc]: it puts no event on the queue, and the
    loop waiting for it blocks. *)
Theorem launch_failure_puts_no_event sargv pargv (who : waiter)
  (what : string) (w : world) :
  let r := run (thread_body who
                  (waiter_run sargv pargv who (PopenRaises (OSError what)))) w in
  r.1 = Ok ()
  ∧ queue r.2 = queue w
  ∧ out r.2 = out w ++
      [InThread who (Popen (waiter_argv sargv pargv who));
       InThread who (Print (waiter_error_label who +:+ exn_str (OSError what)));
       InThread who (ThreadDied (UnboundLocalError "rc"))]
  ∧ (run (reload_loop sargv pargv
            [Arrival who (PopenRaises (OSError what)) []])
         (with_threads [who] (with_queue [] w))).1 = Blocks.
Proof.
  destruct who; cbn; done.
Qed.

(** ** SupervisorLoop: [reload_iteration], [reload_loop] *)

Lemma server_stopped_test (x : waiter) :
  bool_decide (waiter_message x = "server_stopped")
  = match x with server_waiter => true | portal_waiter => false end.
Proof. destruct x; by vm_compute. Qed.

Lemma portal_stopped_test (x : waiter) :
  bool_decide (waiter_message x = "portal_stopped")
  = match x with server_waiter => false | portal_waiter => true end.
Proof. destruct x; by vm_compute. Qed.

Lemma zero_test : bool_decide (0 = 0) = true.
Proof. reflexivity. Qed.

Ltac decide_messages :=
  rewrite ?server_stopped_test, ?portal_stopped_test, ?zero_test in *.

Lemma reload_iteration_crash (who : waiter) (rc : Z) (w : world) :
  rc ≠ 0 →
  run (reload_iteration (waiter_message who) rc) w = (Ok Break, w).
Proof.
  intros Hrc. sunfold. munfold.
  rewrite (bool_decide_eq_false_2 (rc = 0)) by done.
  rewrite !andb_false_r. reflexivity.
Qed.

Lemma reload_iteration_relaunch (who : waiter) (w : world) :
  files w !! waiter_restart_file who = Some "True" →
  ∃ w1, run (reload_iteration (waiter_message who) 0) w = (Ok Continue, w1)
        ∧ files w1 = files w ∧ queue w1 = queue w
        ∧ unwritable w1 = unwritable w ∧ daemon_error w1 = daemon_error w
        ∧ threads w1 = threads w ++ [who]
        ∧ out w1 = out w ++ [PathExists (waiter_restart_file who);
                             ReadFile (waiter_restart_file who);
                             Print (waiter_notice who);
                             StartThread who].
Proof.
  intros Hf. unfold reload_iteration. rewrite run_bind. decide_messages.
  destruct who; cbn [andb and_then waiter_restart_file] in *.
  - rewrite get_restart_mode_run, Hf, bool_decide_eq_true_2 by done.
    eexists. split; [reflexivity|]. cbn. rewrite <- !app_assoc. done.
  - rewrite run_ret. cbn beta iota. rewrite run_bind.
    rewrite get_restart_mode_run, Hf, bool_decide_eq_true_2 by done.
    eexists. split; [reflexivity|]. cbn. rewrite <- !app_assoc. done.
Qed.

Lemma reload_iteration_stop (who : waiter) (w : world) :
  files w !! waiter_restart_file who ≠ Some "True" →
  ∃ l, run (reload_iteration (waiter_message who) 0) w
       = (Ok Break, evolve w (files w) l)
       ∧ l = PathExists (waiter_restart_file who) ::
             match files w !! waiter_restart_file who with
             | Some _ => [ReadFile (waiter_restart_file who)]
             | None => []
             end.
Proof.
  intros Hf. unfold reload_iteration. rewrite run_bind. decide_messages.
  destruct who; cbn [andb and_then waiter_restart_file] in *.
  - rewrite get_restart_mode_run, bool_decide_eq_false_2 by done.
    rewrite run_bind, run_ret. cbn beta iota.
    eexists. split; [reflexivity|done].
  - rewrite run_ret. cbn beta iota. rewrite run_bind.
    rewrite get_restart_mode_run, bool_decide_eq_false_2 by done.
    eexists. split; [reflexivity|done].
Qed.

(** C2. A completion event with a non-zero exit code ends the loop at
    once: the restart flag of the process is not looked at (whatever it
    holds), no thread is started, and the process is no longer among the
    monitored ones. *)
Theorem crash_is_never_relaunched sargv pargv (a : arrival)
  (sched : list arrival) (rc : Z) (w : world) :
  queue w = [] → who a ∈ threads w → outcome a = Exited rc → rc ≠ 0 →
  let r := run (reload_loop sargv pargv (a :: sched)) w in
  r.1 = Ok ()
  ∧ out r.2 = out w ++
      [InThread (who a) (Popen (waiter_argv sargv pargv (who a)));
       InThread (who a) (QueuePut (waiter_message (who a)) rc);
       QueueGet (waiter_message (who a)) rc]
  ∧ who a ∉ threads r.2.
Proof.
  intros Hq Hin Ho Hrc. cbn [reload_loop]. unfold run, bind.
  pose proof (child_ends_exited sargv pargv a rc w Hin Ho) as Hc.
  unfold run in Hc. rewrite Hc. clear Hc.
  unfold queue_get, bind, get_world. cbn. rewrite Hq. cbn.
  unfold log, modify, bind, ret. cbn.
  pose proof (λ w, reload_iteration_crash (who a) rc w Hrc) as Hi.
  unfold run in Hi. rewrite Hi. cbn.
  split; [done|]. split.
  - by rewrite <- app_assoc.
  - intros Hx. apply list_elem_of_filter in Hx as [Hne _]. by apply Hne.
Qed.

Lemma reload_loop_event sargv pargv (a : arrival) (sched : list arrival)
  (rc : Z) (w : world) :
  queue w = [] → who a ∈ threads w → outcome a = Exited rc →
  run (reload_loop sargv pargv (a :: sched)) w =
  let w0 :=
    World (apply_writes (child_writes a) (files w)) (unwritable w)
      (immovable w) (daemon_error w) (SERVER w) (PORTAL w) []
      (filter (λ x, x ≠ who a) (threads w))
      (out w ++ [InThread (who a) (Popen (waiter_argv sargv pargv (who a)));
                 InThread (who a) (QueuePut (waiter_message (who a)) rc);
                 QueueGet (waiter_message (who a)) rc]) in
  match run (reload_iteration (waiter_message (who a)) rc) w0 with
  | (Ok Continue, w1) => run (reload_loop sargv pargv sched) w1
  | (Ok Break, w1) => (Ok (), w1)
  | (Raise e, w1) => (Raise e, w1)
  | (Blocks, w1) => (Blocks, w1)
  end.
Proof.
  intros Hq Hin Ho. cbn [reload_loop]. unfold run, bind.
  pose proof (child_ends_exited sargv pargv a rc w Hin Ho) as Hc.
  unfold run in Hc. rewrite Hc. clear Hc.
  unfold queue_get, bind, get_world. cbn. rewrite Hq. cbn.
  unfold log, modify, bind, ret. wunfold. rewrite <- app_assoc. cbn.
  destruct (reload_iteration _ _ _) as [[[]| |] ?]; done.
Qed.

Lemma reload_loop_relaunch sargv pargv (a : arrival)
  (sched : list arrival) (w : world) :
  queue w = [] → who a ∈ threads w → outcome a = Exited 0 →
  apply_writes (child_writes a) (files w) !! waiter_restart_file (who a)
    = Some "True" →
  ∃ w1, run (reload_loop sargv pargv (a :: sched)) w
        = run (reload_loop sargv pargv sched) w1
      ∧ out w1 = out w ++
          [InThread (who a) (Popen (waiter_argv sargv pargv (who a)));
           InThread (who a) (QueuePut (waiter_message (who a)) 0);
           QueueGet (waiter_message (who a)) 0;
           PathExists (waiter_restart_file (who a));
           ReadFile (waiter_restart_file (who a));
           Print (waiter_notice (who a));
           StartThread (who a)]
      ∧ files w1 = apply_writes (child_writes a) (files w)
      ∧ threads w1 = filter (λ x, x ≠ who a) (threads w) ++ [who a]
      ∧ queue w1 = [].
Proof.
  intros Hq Hin Ho Hf.
  rewrite (reload_loop_event sargv pargv a sched 0 w Hq Hin Ho). cbv zeta.
  match goal with |- context [run (reload_iteration _ _) ?w0] =>
    destruct (reload_iteration_relaunch (who a) w0 Hf)
      as (w1 & -> & Hfiles & Hqueue & _ & _ & Hthreads & Hout)
  end.
  exists w1. cbn in *. rewrite Hout, Hfiles, Hthreads, Hqueue.
  rewrite <- app_assoc. done.
Qed.

(** The same with the world from which the loop goes on chosen once for
    every continuation of the schedule. *)
Lemma reload_loop_relaunch_all sargv pargv (a : arrival) (w : world) :
  queue w = [] → who a ∈ threads w → outcome a = Exited 0 →
  apply_writes (child_writes a) (files w) !! waiter_restart_file (who a)
    = Some "True" →
  ∃ w1, (∀ sched, run (reload_loop sargv pargv (a :: sched)) w
                  = run (reload_loop sargv pargv sched) w1)
      ∧ out w1 = out w ++
          [InThread (who a) (Popen (waiter_argv sargv pargv (who a)));
           InThread (who a) (QueuePut (waiter_message (who a)) 0);
           QueueGet (waiter_message (who a)) 0;
           PathExists (waiter_restart_file (who a));
           ReadFile (waiter_restart_file (who a));
           Print (waiter_notice (who a));
           StartThread (who a)]
      ∧ files w1 = apply_writes (child_writes a) (files w)
      ∧ threads w1 = filter (λ x, x ≠ who a) (threads w) ++ [who a]
      ∧ queue w1 = [].
Proof.
  intros Hq Hin Ho Hf.
  pose proof (λ sched, reload_loop_event sargv pargv a sched 0 w Hq Hin Ho) as He.
  cbv zeta in He.
  match type of He with context [run (reload_iteration _ _) ?w0] =>
    destruct (reload_iteration_relaunch (who a) w0 Hf)
      as (w1 & Hrun & Hfiles & Hqueue & _ & _ & Hthreads & Hout)
  end.
  exists w1. split.
  - intros sched. by rewrite He, Hrun.
  - cbn in *. rewrite Hout, Hfiles, Hthreads, Hqueue.
    rewrite <- app_assoc. done.
Qed.

(** C1, amended. The loop returns exactly at the first completion event
    that asks for no relaunch (a non-zero exit code, or exit code zero
    while the restart flag does not read True), whichever other waiters
    are still alive; an event that asks for a relaunch, a waiter that died
    without an event and an exhausted schedule never make it return.  With
    the Portal started as a daemon and no Server thread, [start_services]
    returns without entering the loop. *)
Theorem reload_loop_returns_on_first_stop sargv pargv :
  (∀ w, run (reload_loop sargv pargv []) w = (Blocks, w))
  ∧ (∀ a sched rc w,
       queue w = [] → who a ∈ threads w → outcome a = Exited rc →
       relaunch_wanted (apply_writes (child_writes a) (files w)) (who a) rc
         = false →
       let r := run (reload_loop sargv pargv (a :: sched)) w in
       r.1 = Ok () ∧ threads r.2 = filter (λ x, x ≠ who a) (threads w))
  ∧ (∀ a sched rc w,
       queue w = [] → who a ∈ threads w → outcome a = Exited rc →
       relaunch_wanted (apply_writes (child_writes a) (files w)) (who a) rc
         = true →
       ∃ w1, run (reload_loop sargv pargv (a :: sched)) w
             = run (reload_loop sargv pargv sched) w1
           ∧ queue w1 = []
           ∧ threads w1 = filter (λ x, x ≠ who a) (threads w) ++ [who a])
  ∧ (∀ a sched what w,
       queue w = [] → who a ∈ threads w →
       outcome a = PopenRaises (OSError what) →
       ∃ w1, run (reload_loop sargv pargv (a :: sched)) w
             = run (reload_loop sargv pargv sched) w1
           ∧ queue w1 = []
           ∧ threads w1 = filter (λ x, x ≠ who a) (threads w))
  ∧ (∀ a sched w,
       queue w = [] → who a ∉ threads w →
       run (reload_loop sargv pargv (a :: sched)) w
       = run (reload_loop sargv pargv sched) w)
  ∧ (∀ sched w,
       truthy_list pargv = true → SERVER w = None → daemon_error w = None →
       files w !! PORTAL_RESTART ≠ Some "True" →
       (run (start_services None pargv sched) w).1 = Ok ()
       ∧ run (start_services None pargv sched) w
         = run (start_services None pargv []) w).
Proof.
  split; [reflexivity|]. split; [|split; [|split; [|split]]].
  - intros a sched rc w Hq Hin Ho Hr.
    rewrite (reload_loop_event sargv pargv a sched rc w Hq Hin Ho). cbv zeta.
    unfold relaunch_wanted in Hr. apply andb_false_iff in Hr as [Hr|Hr].
    + apply bool_decide_eq_false in Hr.
      pose proof (λ w, reload_iteration_crash (who a) rc w Hr) as Hi.
      rewrite Hi. done.
    + apply bool_decide_eq_false in Hr.
      destruct (decide (rc = 0)) as [->|Hrc].
      * match goal with |- context [run (reload_iteration _ _) ?w0] =>
          destruct (reload_iteration_stop (who a) w0 Hr) as (l & -> & _)
        end. done.
      * pose proof (λ w, reload_iteration_crash (who a) rc w Hrc) as Hi.
        rewrite Hi. done.
  - intros a sched rc w Hq Hin Ho Hr.
    unfold relaunch_wanted in Hr. apply andb_true_iff in Hr as [Hrc Hf].
    apply bool_decide_eq_true in Hrc as ->. apply bool_decide_eq_true in Hf.
    destruct (reload_loop_relaunch sargv pargv a sched w
                Hq Hin Ho Hf) as (w1 & ? & ? & ? & ? & ?).
    exists w1. done.
  - intros a sched what w Hq Hin Ho. cbn [reload_loop]. unfold run, bind.
    pose proof (child_ends_raises sargv pargv a what w Hin Ho) as Hc.
    unfold run in Hc. rewrite Hc. clear Hc.
    unfold queue_get, bind, get_world, ret. cbn. rewrite Hq.
    eexists. split; [reflexivity|]. done.
  - intros a sched w Hq Hin. cbn [reload_loop]. unfold run, bind.
    pose proof (child_ends_not_alive sargv pargv a w Hin) as Hc.
    unfold run in Hc. rewrite Hc. clear Hc.
    unfold queue_get, bind, get_world, ret. cbn. rewrite Hq. done.
  - intros sched w Hp Hs Hd Hf.
    unfold start_services. destruct pargv as [[|x argv]|]; try done.
    cbn [truthy_list when]. unfold run, bind, modify, ret.
    pose proof (get_restart_mode_run PORTAL_RESTART (with_queue [] w)) as Hg.
    unfold run in Hg. rewrite Hg. clear Hg.
    rewrite bool_decide_eq_false_2 by done.
    unfold popen_nowait, bind, log, modify, get_world, ret. cbn.
    rewrite Hd. unfold emit, evolve, with_queue, with_PORTAL. cbn.
    rewrite Hs. done.
Qed.

(** With no waiter alive nothing is ever put on the queue: the loop
    blocks whatever the schedule.  This is the run with both processes
    disabled, which [start_services] does not guard against. *)
Lemma reload_loop_nobody sargv pargv (sched : list arrival) (w : world) :
  threads w = [] → queue w = [] →
  run (reload_loop sargv pargv sched) w = (Blocks, w).
Proof.
  intros Ht Hq. induction sched as [|a sched IH]; [reflexivity|].
  cbn [reload_loop]. rewrite run_bind, child_ends_not_alive
    by (rewrite Ht; apply not_elem_of_nil).
  rewrite run_bind. unfold queue_get. rewrite run_bind, run_get_world.
  cbn beta iota. rewrite Hq, run_ret. exact IH.
Qed.

Lemma start_services_nothing_blocks (sched : list arrival) (w : world) :
  threads w = [] →
  (run (start_services None None sched) w).1 = Blocks.
Proof.
  intros Ht. unfold start_services. cbn [truthy_list when]. mrun.
  by rewrite reload_loop_nobody.
Qed.

(** ** What the reload loop and [start_services] can do at all *)

Lemma loop_effect_mono (xs ys : list waiter) (e : effect) :
  xs ⊆ ys → loop_effect xs e = true → loop_effect ys e = true.
Proof.
  intros Hsub. destruct e; cbn; try done;
    intros H%bool_decide_eq_true; apply bool_decide_eq_true; auto.
Qed.

Lemma forallb_loop_effect_mono (xs ys : list waiter) (l : list effect) :
  xs ⊆ ys → forallb (loop_effect xs) l = true →
  forallb (loop_effect ys) l = true.
Proof.
  intros Hsub. rewrite !forallb_forall. intros H e He.
  eapply loop_effect_mono; eauto.
Qed.

Lemma filter_subseteq_threads (x : waiter) (ts : list waiter) :
  filter (λ y, y ≠ x) ts ⊆ ts.
Proof. intros y Hy. by apply list_elem_of_filter in Hy as [_ ?]. Qed.

Lemma child_ends_summary sargv pargv (a : arrival) (w : world) :
  ∃ w1 l, run (child_ends sargv pargv a) w = (Ok (), w1)
    ∧ out w1 = out w ++ l
    ∧ forallb (loop_effect (threads w)) l = true
    ∧ unwritable w1 = unwritable w ∧ daemon_error w1 = daemon_error w
    ∧ threads w1 ⊆ threads w
    ∧ (queue w1 = queue w
       ∨ ∃ rc, queue w1 = queue w ++ [(waiter_message (who a), rc)]
               ∧ who a ∈ threads w).
Proof.
  destruct (decide (who a ∈ threads w)) as [Hin|Hout].
  - assert (Hb : bool_decide (who a ∈ threads w) = true)
      by by apply bool_decide_eq_true.
    destruct (outcome a) as [rc|e] eqn:Ho.
    + rewrite (child_ends_exited sargv pargv a rc w Hin Ho).
      eexists _, _. split; [reflexivity|]. cbn.
      split; [reflexivity|]. split; [cbn; by rewrite Hb|].
      repeat split; eauto using filter_subseteq_threads.
    + sunfold. munfold. cbn. rewrite Hb, Ho.
      destruct (who a) eqn:Hw, e; cbn;
        (eexists _, _; split; [reflexivity|]); cbn;
        (split; [reflexivity|]); (split; [cbn; by rewrite ?Hb|]);
        (repeat split; eauto using filter_subseteq_threads).
  - rewrite (child_ends_not_alive sargv pargv a w Hout).
    exists w, []. rewrite app_nil_r. repeat split; eauto.
Qed.

Lemma reload_iteration_summary (x : waiter) (rc : Z) (w : world) :
  ∃ f w1 l, run (reload_iteration (waiter_message x) rc) w = (Ok f, w1)
    ∧ out w1 = out w ++ l
    ∧ forallb (loop_effect [x]) l = true
    ∧ unwritable w1 = unwritable w ∧ daemon_error w1 = daemon_error w
    ∧ threads w1 ⊆ threads w ++ [x]
    ∧ queue w1 = queue w.
Proof.
  destruct (decide (rc = 0)) as [->|Hrc].
  - destruct (decide (files w !! waiter_restart_file x = Some "True"))
      as [Hf|Hf].
    + destruct (reload_iteration_relaunch x w Hf)
        as (w1 & -> & _ & Hq & Hu & Hd & Ht & Ho).
      eexists Continue, w1, _. split; [reflexivity|].
      split; [exact Ho|]. split.
      { cbn. rewrite bool_decide_eq_true_2 by set_solver. done. }
      rewrite Ht. done.
    + destruct (reload_iteration_stop x w Hf) as (l & -> & ->).
      eexists Break, _, _. split; [reflexivity|]. cbn.
      split; [reflexivity|]. split.
      { by destruct (files w !! _). }
      repeat split; auto. set_solver.
  - rewrite (reload_iteration_crash x rc w Hrc).
    exists Break, w, []. rewrite app_nil_r. repeat split; auto. set_solver.
Qed.

Lemma reload_loop_log sargv pargv (sched : list arrival) :
  ∀ w, queue w = [] →
  ∃ r w' l, run (reload_loop sargv pargv sched) w = (r, w')
    ∧ (r = Ok () ∨ r = Blocks)
    ∧ out w' = out w ++ l
    ∧ forallb (loop_effect (threads w)) l = true.
Proof.
  induction sched as [|a sched IH]; intros w Hq.
  - exists Blocks, w, []. rewrite app_nil_r. split; [reflexivity|]. auto.
  - cbn [reload_loop]. rewrite run_bind.
    destruct (child_ends_summary sargv pargv a w)
      as (w1 & l1 & -> & Ho1 & Hl1 & _ & _ & Ht1 & Hq1).
    rewrite run_bind. unfold queue_get at 1. rewrite run_bind.
    unfold get_world at 1. cbn [run].
    destruct Hq1 as [Hq1|(rc & Hq1 & Hin)]; rewrite Hq1, Hq.
    + rewrite run_ret. cbn beta iota.
      destruct (IH w1) as (r & w' & l2 & Hr & Hres & Ho2 & Hl2);
        [congruence|].
      exists r, w', (l1 ++ l2). split; [exact Hr|]. split; [exact Hres|].
      split; [by rewrite Ho2, Ho1, app_assoc|].
      rewrite forallb_app, Hl1.
      by rewrite (forallb_loop_effect_mono _ _ _ Ht1 Hl2).
    + cbn [app]. rewrite run_bind. unfold log, modify at 1. cbn [run].
      rewrite run_bind. unfold modify at 1. cbn [run]. rewrite run_ret.
      rewrite run_bind.
      match goal with |- context [run (reload_iteration _ _) ?w0] =>
        destruct (reload_iteration_summary (who a) rc w0)
          as (f & w2 & l2 & -> & Ho2 & Hl2 & _ & _ & Ht2 & Hq2)
      end.
      cbn in Ho2, Ht2, Hq2.
      assert (Hsub : threads w2 ⊆ threads w) by set_solver.
      assert (Hl2' : forallb (loop_effect (threads w)) l2 = true).
      { eapply forallb_loop_effect_mono; [|exact Hl2]. set_solver. }
      destruct f.
      * destruct (IH w2 Hq2) as (r & w' & l3 & Hr & Hres & Ho3 & Hl3).
        exists r, w', (l1 ++ [QueueGet (waiter_message (who a)) rc] ++ l2 ++ l3).
        split; [exact Hr|]. split; [exact Hres|]. split.
        { rewrite Ho3, Ho2, Ho1. by rewrite <- !app_assoc. }
        rewrite !forallb_app, Hl1, Hl2'. cbn.
        by rewrite (forallb_loop_effect_mono _ _ _ Hsub Hl3).
      * exists (Ok ()), w2, (l1 ++ [QueueGet (waiter_message (who a)) rc] ++ l2).
        split; [reflexivity|]. split; [auto|]. split.
        { rewrite Ho2, Ho1. by rewrite <- !app_assoc. }
        rewrite !forallb_app, Hl1, Hl2'. done.
Qed.

(** C3. A completion event with exit code zero, while the restart flag
    of the process reads True, is answered by a relaunch.  In the world
    that the loop reaches when this is the last event, the loop has not
    returned: it waits for the next event; its log has gained the
    restarting notice and the start of exactly one new waiter thread of
    the same closure, after the test and the read of the flag; the
    supervisor has moved or written no file in doing so (no log rotation,
    no pid record: the files are those the child left), and the process is
    monitored again.  Whatever the schedule holds next, the loop goes on
    from that very world, and its log begins with the log of that world. *)
Theorem clean_exit_with_intent_relaunches sargv pargv (a : arrival)
  (w : world) :
  queue w = [] → who a ∈ threads w → outcome a = Exited 0 →
  apply_writes (child_writes a) (files w) !! waiter_restart_file (who a)
    = Some "True" →
  let r := run (reload_loop sargv pargv [a]) w in
  r.1 = Blocks
  ∧ out r.2 = out w ++
      [InThread (who a) (Popen (waiter_argv sargv pargv (who a)));
       InThread (who a) (QueuePut (waiter_message (who a)) 0);
       QueueGet (waiter_message (who a)) 0;
       PathExists (waiter_restart_file (who a));
       ReadFile (waiter_restart_file (who a));
       Print (waiter_notice (who a));
       StartThread (who a)]
  ∧ files r.2 = apply_writes (child_writes a) (files w)
  ∧ threads r.2 = filter (λ x, x ≠ who a) (threads w) ++ [who a]
  ∧ queue r.2 = []
  ∧ (∀ sched, run (reload_loop sargv pargv (a :: sched)) w
              = run (reload_loop sargv pargv sched) r.2)
  ∧ (∀ sched, ∃ l, out (run (reload_loop sargv pargv (a :: sched)) w).2
                   = out r.2 ++ l).
Proof.
  intros Hq Hin Ho Hf r.
  destruct (reload_loop_relaunch_all sargv pargv a w Hq Hin Ho Hf)
    as (w1 & Hall & Hout & Hfiles & Hthreads & Hqueue).
  assert (Hr : r = (Blocks, w1)) by (subst r; by rewrite Hall).
  rewrite Hr. cbn [fst snd].
  split; [done|]. split; [done|]. split; [done|]. split; [done|].
  split; [done|]. split; [done|].
  intros sched. rewrite Hall.
  destruct (reload_loop_log sargv pargv sched w1 Hqueue)
    as (r' & w' & l & -> & _ & Ho' & _).
  by exists l.
Qed.

Lemma loop_effect_services sargv pargv (alive : list waiter) (e : effect) :
  (∀ x, x ∈ alive → truthy_list (waiter_argv sargv pargv x) = true) →
  loop_effect alive e = true → services_effect sargv pargv e = true.
Proof.
  intros Ha. destruct e; cbn; try done;
    intros H%bool_decide_eq_true; auto.
Qed.

Lemma reload_loop_services sargv pargv (sched : list arrival)
  (w w1 : world) (l0 : list effect) :
  queue w1 = [] →
  (∀ x, x ∈ threads w1 → truthy_list (waiter_argv sargv pargv x) = true) →
  out w1 = out w ++ l0 →
  forallb (services_effect sargv pargv) l0 = true →
  ∃ r w' l, run (reload_loop sargv pargv sched) w1 = (r, w')
    ∧ out w' = out w ++ l
    ∧ forallb (services_effect sargv pargv) l = true.
Proof.
  intros Hq Ht Ho Hl0.
  destruct (reload_loop_log sargv pargv sched w1 Hq)
    as (r & w' & l & Hr & _ & Ho' & Hl).
  exists r, w', (l0 ++ l). split; [exact Hr|].
  split; [by rewrite Ho', Ho, app_assoc|].
  rewrite forallb_app, Hl0. cbn. apply forallb_forall. intros e He.
  rewrite forallb_forall in Hl.
  eapply loop_effect_services; eauto.
Qed.

Ltac services_close :=
  cbn; try destruct (files _ !! _); cbn;
  repeat match goal with H : truthy_list _ = _ |- _ => rewrite H end; cbn;
  rewrite ?bool_decide_eq_true_2 by done; done.

Lemma start_services_log sargv pargv (sched : list arrival) (w : world) :
  threads w = [] →
  ∃ r w' l, run (start_services sargv pargv sched) w = (r, w')
    ∧ out w' = out w ++ l
    ∧ forallb (services_effect sargv pargv) l = true.
Proof.
  intros Hth. unfold start_services.

  destruct (truthy_list sargv) eqn:Hs; destruct (truthy_list pargv) eqn:Hp;
    cbn [when]; mrun.
  - match goal with |- context [bool_decide ?P] =>
      destruct (bool_decide P) end; mrun.
    + eapply reload_loop_services.
      * reflexivity.
      * cbn. rewrite Hth. intros x Hx. by destruct x.
      * cbn. rewrite <- !app_assoc. reflexivity.
      * services_close.
    + cbn [daemon_error emit evolve with_SERVER with_threads with_queue].
      destruct (daemon_error w) as [e|]; mrun.
      * eexists _, _, _. split; [reflexivity|]. cbn. rewrite <- !app_assoc.
        split; [reflexivity|]. services_close.
      * cbn. eapply reload_loop_services.
        -- reflexivity.
        -- cbn. rewrite Hth. intros x Hx.
           assert (x = server_waiter) as -> by set_solver. done.
        -- cbn. rewrite <- !app_assoc. reflexivity.
        -- services_close.
  - eapply reload_loop_services.
    + reflexivity.
    + cbn. rewrite Hth. intros x Hx.
      assert (x = server_waiter) as -> by set_solver. done.
    + cbn. reflexivity.
    + cbn. by rewrite Hs.
  - match goal with |- context [bool_decide ?P] =>
      destruct (bool_decide P) end; mrun.
    + eapply reload_loop_services.
      * reflexivity.
      * cbn. rewrite Hth. intros x Hx.
        assert (x = portal_waiter) as -> by set_solver. done.
      * cbn. rewrite <- !app_assoc. reflexivity.
      * services_close.
    + cbn [daemon_error emit evolve with_SERVER with_threads with_queue].
      destruct (daemon_error w) as [e|]; mrun.
      * eexists _, _, _. split; [reflexivity|]. cbn. rewrite <- !app_assoc.
        split; [reflexivity|]. services_close.
      * cbn. destruct (bool_decide (is_Some (SERVER w))); mrun.
        -- eapply reload_loop_services.
           ++ reflexivity.
           ++ cbn. rewrite Hth. set_solver.
           ++ cbn. rewrite <- !app_assoc. reflexivity.
           ++ services_close.
        -- eexists _, _, _. split; [reflexivity|].
           cbn. rewrite <- !app_assoc. split; [reflexivity|].
           services_close.
  - eapply reload_loop_services.
    + reflexivity.
    + cbn. rewrite Hth. set_solver.
    + cbn. symmetry. apply app_nil_r.
    + done.
Qed.

(** ** The blocks of [main] *)

Ltac lists_eq :=
  unfold emit, evolve, pid_probe; cbn;
  repeat progress (rewrite <- ?app_assoc; cbn [app]);
  done.

Lemma get_pid_run (p : string) (w : world) :
  run (get_pid p) w = (Ok (files w !! p), evolve w (files w) (pid_probe p (files w))).
Proof.
  unfold get_pid, pid_probe. munfold. cbn.
  destruct (files w !! p) as [c|] eqn:E; cbn.
  - rewrite E. wunfold. by rewrite <- app_assoc.
  - done.
Qed.

Lemma set_restart_mode_run (p : string) (b : bool) (w : world) :
  run (set_restart_mode p b) w =
  if bool_decide (p ∈ unwritable w)
  then (Raise (IOError p), evolve w (files w) [WriteFile p (str_bool b)])
  else (Ok (), evolve w (<[p:=str_bool b]> (files w)) [WriteFile p (str_bool b)]).
Proof.
  munfold. cbn. by destruct (bool_decide (p ∈ unwritable w)).
Qed.

Lemma py_del_third {A} (a b c d e : A) :
  py_del [a; b; c; d; e] 2 = Some [a; b; d; e].
Proof. reflexivity. Qed.

Lemma py_setitem_second {A} (a b c d x : A) :
  py_setitem [a; b; c; d] 1 x = Some [a; x; c; d].
Proof. reflexivity. Qed.

Lemma main_server_run settings (options : Options) (w : world) :
  immovable w = ∅ →
  let pid := files w !! SERVER_PIDFILE in
  let probe := pid_probe SERVER_PIDFILE (files w) in
  let http := strip (HTTP_LOG_FILE settings) in
  if truthy_str pid && negb (noserver options) then
    run (main_server settings options) w
    = (Ok None, evolve w (files w) (probe ++ [Print (server_notice (default "" pid))]))
  else if noserver options then
    run (main_server settings options) w = (Ok None, evolve w (files w) probe)
  else if bool_decide (SERVER_RESTART ∈ unwritable w) then
    run (main_server settings options) w
    = (Raise (IOError SERVER_RESTART),
       evolve w (files w) (probe ++ [WriteFile SERVER_RESTART "True"]))
  else
    ∃ l, run (main_server settings options) w
         = (Ok (Some (server_argv_of settings options)),
            evolve w (rotate_spec http
                        (rotate_spec (SERVER_LOGFILE settings)
                           (<[SERVER_RESTART:="True"]> (files w))))
              (probe ++ [WriteFile SERVER_RESTART "True";
                         Print (server_start_message options);
                         PathExists (SERVER_LOGFILE settings)] ++ l))
       ∧ forallb (rotation_effect (rotation_paths settings (SERVER_LOGFILE settings))) l
         = true.
Proof.
  intros Him pid probe http. unfold main_server.
  rewrite run_bind, get_pid_run. cbn beta iota. fold pid probe.
  destruct (truthy_str pid && negb (noserver options)) eqn:Hskip.
  - mrun. lists_eq.
  - mrun. destruct (noserver options) eqn:Hno.
    + mrun. done.
    + rewrite run_bind, set_restart_mode_run.
      cbn [unwritable evolve].
      destruct (bool_decide (SERVER_RESTART ∈ unwritable w)).
      * lists_eq.
      * cbn beta iota. rewrite evolve_evolve.
        unfold server_argv_of, server_start_message.
        destruct (iserver options); rewrite ?py_del_third;
          cbn [index_or_raise]; mrun;
          match goal with |- context [run (cycle_logfile _ ?p) ?w0] =>
            destruct (cycle_logfile_run settings p w0 Him) as (l & -> & Hl)
          end;
          exists l; (split; [|exact Hl]); mrun; lists_eq.
Qed.

Lemma main_portal_run settings (options : Options) (w : world) :
  immovable w = ∅ →
  let pid := files w !! PORTAL_PIDFILE in
  let probe := pid_probe PORTAL_PIDFILE (files w) in
  let http := strip (HTTP_LOG_FILE settings) in
  let flag := str_bool (iportal options) in
  if truthy_str pid && negb (noportal options) then
    run (main_portal settings options) w
    = (Ok None, evolve w (files w) (probe ++ [Print (portal_notice (default "" pid))]))
  else if noportal options then
    run (main_portal settings options) w = (Ok None, evolve w (files w) probe)
  else if bool_decide (PORTAL_RESTART ∈ unwritable w) then
    run (main_portal settings options) w
    = (Raise (IOError PORTAL_RESTART),
       evolve w (files w) (probe ++ [WriteFile PORTAL_RESTART flag]))
  else
    ∃ l, run (main_portal settings options) w
         = (Ok (Some (portal_argv_of settings options)),
            evolve w (rotate_spec http
                        (rotate_spec (PORTAL_LOGFILE settings)
                           (<[PORTAL_RESTART:=flag]> (files w))))
              (probe ++ [WriteFile PORTAL_RESTART flag;
                         Print (portal_start_message options);
                         PathExists (PORTAL_LOGFILE settings)] ++ l))
       ∧ forallb (rotation_effect (rotation_paths settings (PORTAL_LOGFILE settings))) l
         = true.
Proof.
  intros Him pid probe http flag. unfold main_portal.
  rewrite run_bind, get_pid_run. cbn beta iota. fold pid probe.
  destruct (truthy_str pid && negb (noportal options)) eqn:Hskip.
  - mrun. lists_eq.
  - mrun. destruct (noportal options) eqn:Hno.
    + mrun. done.
    + unfold portal_argv_of, portal_start_message, flag.
      destruct (iportal options); rewrite ?py_setitem_second;
        cbn [index_or_raise]; mrun; rewrite set_restart_mode_run;
        cbn [unwritable evolve];
        (destruct (bool_decide (PORTAL_RESTART ∈ unwritable w));
         [ lists_eq |]);
        mrun;
        match goal with |- context [run (cycle_logfile _ ?p) ?w0] =>
          destruct (cycle_logfile_run settings p w0 Him) as (l & -> & Hl)
        end;
        exists l; (split; [|exact Hl]); mrun; lists_eq.
Qed.

Lemma windows_fix_none settings (w : world) :
  run (windows_fix settings None) w = (Ok None, w).
Proof. unfold windows_fix. cbn. by rewrite andb_false_r. Qed.


(** ** [main] *)

Lemma rotation_effect_setup (flag : string) (paths : list string) (l : list effect) :
  forallb (rotation_effect paths) l = true →
  forallb (setup_effect flag paths) l = true.
Proof.
  rewrite !forallb_forall. intros H e He. specialize (H e He).
  by destruct e.
Qed.

Lemma pid_probe_setup (flag p : string) (paths : list string)
  (f : gmap string string) :
  forallb (setup_effect flag paths) (pid_probe p f) = true.
Proof. unfold pid_probe. by destruct (f !! p). Qed.

Lemma rotate_spec_twice_frame settings (p q : string) (f : gmap string string) :
  q ∉ rotation_paths settings p →
  rotate_spec (strip (HTTP_LOG_FILE settings)) (rotate_spec p f) !! q = f !! q.
Proof.
  unfold rotation_paths. intros Hq.
  rewrite !rotate_spec_frame; [done|set_solver..].
Qed.

Lemma main_server_summary settings (options : Options) (w : world) :
  immovable w = ∅ →
  block_summary SERVER_RESTART (rotation_paths settings (SERVER_LOGFILE settings))
    (main_server settings options) w.
Proof.
  intros Him.
  pose proof (main_server_run settings options w Him) as H. cbv zeta in H.
  unfold block_summary.
  destruct (truthy_str _ && negb _).
  { eexists _, _, _. split; [exact H|]. split.
    - rewrite forallb_app, pid_probe_setup. done.
    - split; [done|]. intros p s Hin.
      apply elem_of_app in Hin as [Hin|Hin]; [|set_solver].
      unfold pid_probe in Hin. destruct (files w !! _); set_solver. }
  destruct (noserver options).
  { eexists _, _, _. split; [exact H|]. split.
    - apply pid_probe_setup.
    - split; [done|]. intros p s Hin.
      unfold pid_probe in Hin. destruct (files w !! _); set_solver. }
  destruct (bool_decide (SERVER_RESTART ∈ unwritable w)) eqn:Hro.
  { eexists _, _, _. split; [exact H|]. split.
    - rewrite forallb_app, pid_probe_setup. cbn.
      by rewrite bool_decide_eq_true_2.
    - split; [done|]. split; [done|]. by apply bool_decide_eq_true in Hro. }
  destruct H as (l & H & Hl). apply bool_decide_eq_false in Hro.
  eexists _, _, _. split; [exact H|]. split.
  - rewrite forallb_app, pid_probe_setup. cbn.
    rewrite bool_decide_eq_true_2 by done. cbn.
    by apply rotation_effect_setup.
  - split.
    + intros q Hq1 Hq2. rewrite rotate_spec_twice_frame by done.
      by rewrite lookup_insert_ne.
    + intros p s Hin.
      apply elem_of_app in Hin as [Hin|Hin].
      { unfold pid_probe in Hin. destruct (files w !! _); set_solver. }
      apply elem_of_cons in Hin as [Hin|Hin]; [congruence|].
      apply elem_of_cons in Hin as [Hin|Hin]; [done|].
      apply elem_of_cons in Hin as [Hin|Hin]; [done|].
      rewrite forallb_forall in Hl.
      apply list_elem_of_In, Hl in Hin. done.
Qed.

Lemma main_portal_summary settings (options : Options) (w : world) :
  immovable w = ∅ →
  block_summary PORTAL_RESTART (rotation_paths settings (PORTAL_LOGFILE settings))
    (main_portal settings options) w.
Proof.
  intros Him.
  pose proof (main_portal_run settings options w Him) as H. cbv zeta in H.
  unfold block_summary.
  destruct (truthy_str _ && negb _).
  { eexists _, _, _. split; [exact H|]. split.
    - rewrite forallb_app, pid_probe_setup. done.
    - split; [done|]. intros p s Hin.
      apply elem_of_app in Hin as [Hin|Hin]; [|set_solver].
      unfold pid_probe in Hin. destruct (files w !! _); set_solver. }
  destruct (noportal options).
  { eexists _, _, _. split; [exact H|]. split.
    - apply pid_probe_setup.
    - split; [done|]. intros p s Hin.
      unfold pid_probe in Hin. destruct (files w !! _); set_solver. }
  destruct (bool_decide (PORTAL_RESTART ∈ unwritable w)) eqn:Hro.
  { eexists _, _, _. split; [exact H|]. split.
    - rewrite forallb_app, pid_probe_setup. cbn.
      by rewrite bool_decide_eq_true_2.
    - split; [done|]. split; [done|]. by apply bool_decide_eq_true in Hro. }
  destruct H as (l & H & Hl). apply bool_decide_eq_false in Hro.
  eexists _, _, _. split; [exact H|]. split.
  - rewrite forallb_app, pid_probe_setup. cbn.
    rewrite bool_decide_eq_true_2 by done. cbn.
    by apply rotation_effect_setup.
  - split.
    + intros q Hq1 Hq2. rewrite rotate_spec_twice_frame by done.
      by rewrite lookup_insert_ne.
    + intros p s Hin.
      apply elem_of_app in Hin as [Hin|Hin].
      { unfold pid_probe in Hin. destruct (files w !! _); set_solver. }
      apply elem_of_cons in Hin as [Hin|Hin]; [congruence|].
      apply elem_of_cons in Hin as [Hin|Hin]; [done|].
      apply elem_of_cons in Hin as [Hin|Hin]; [done|].
      rewrite forallb_forall in Hl.
      apply list_elem_of_In, Hl in Hin. done.
Qed.

Lemma main_started settings (options : Options) (args : list string)
  (sched : list arrival) (w : world) :
  args !! 0%nat = Some "start" →
  run (main settings options args sched) w =
  run (bind (main_server settings options) (λ server_argv,
       bind (main_portal settings options) (λ portal_argv,
       bind (windows_fix settings server_argv) (λ server_argv,
       bind (windows_fix settings portal_argv) (λ portal_argv,
       start_services server_argv portal_argv sched))))) w.
Proof.
  intros Hs. unfold main. rewrite run_bind.
  rewrite (bool_decide_eq_false_2 (args = [])) by (by destruct args).
  rewrite (bool_decide_eq_true_2 (args !! 0%nat = Some "start")) by done.
  cbn [negb orb when]. rewrite run_ret. done.
Qed.

Lemma main_not_started settings (options : Options)
  (args : list string) (sched : list arrival) (w : world) :
  args !! 0%nat ≠ Some "start" →
  run (main settings options args sched) w
  = (Raise (SystemExit None), emit PrintHelp w).
Proof.
  intros Hs. unfold main. rewrite run_bind.
  assert (bool_decide (args = []) || negb (bool_decide (args !! 0%nat = Some "start"))
          = true) as ->.
  { rewrite (bool_decide_eq_false_2 (args !! 0%nat = Some "start")) by done.
    apply orb_true_r. }
  cbn [when]. unfold sys_exit. mrun. done.
Qed.

(** C9, amended. For the options and arguments that
    [parser.parse_args()] has returned, that is for an invocation that
    reaches the test on [args]: when the arguments do not begin with
    [start], [main] prints the help and leaves through [sys.exit()], that
    is with exit status 0; it does nothing else: no file is touched and no
    process is started. *)
Theorem main_without_start_exits settings (options : Options)
  (args : list string) (sched : list arrival) (w : world) :
  args !! 0%nat ≠ Some "start" →
  run (main settings options args sched) w
  = (Raise (SystemExit None), emit PrintHelp w)
  ∧ exit_status None = 0.
Proof. intros Hs. split; [by apply main_not_started|reflexivity]. Qed.

Lemma main_without_start_exits_witness :
  run (main sample_settings default_options ["stop"] []) (fresh_world ∅ ∅ None)
  = (Raise (SystemExit None), emit PrintHelp (fresh_world ∅ ∅ None))
  ∧ exit_status None = 0.
Proof. apply main_without_start_exits. by vm_compute. Defined.

(** C9 as stated fails: without arguments the runner prints the help and
    exits with status 0, not with a non-zero status. *)
Lemma main_without_arguments_exits_zero :
  ∃ code, (run (main sample_settings default_options [] []) (fresh_world ∅ ∅ None)).1
          = Raise (SystemExit code)
        ∧ exit_status code = 0.
Proof. exists None. split; reflexivity. Qed.

Lemma windows_fix_cases settings (argv : option (list string)) (w : world) :
  ∃ r, run (windows_fix settings argv) w = (r, w)
     ∧ match r with
       | Ok argv' => truthy_list argv = false → argv' = argv
       | Raise _ => True
       | Blocks => False
       end.
Proof.
  unfold windows_fix.
  destruct (bool_decide _) ; destruct (truthy_list argv) eqn:Ht;
    cbn [andb]; mrun;
    try (eexists; split; [reflexivity|cbn; done]).
  destruct (py_del _ _); cbn; mrun;
    (eexists; split; [reflexivity|cbn; done]).
Qed.

Lemma services_effect_tail settings sargv sargv' pargv (e : effect) :
  (truthy_list sargv = false → sargv' = sargv) →
  services_effect sargv' pargv e = true →
  tail_effect settings (truthy_list sargv) e = true.
Proof.
  intros Hs. unfold tail_effect.
  destruct e; cbn; try done; try (intros _; apply orb_true_r).
  - destruct w; cbn; [|intros _; apply orb_true_r]. intros Ht.
    destruct (truthy_list sargv) eqn:E; [done|].
    rewrite Hs in Ht by done. congruence.
  - destruct w; cbn; [|intros _; apply orb_true_r]. intros Ht.
    destruct (truthy_list sargv) eqn:E; [done|].
    rewrite Hs in Ht by done. congruence.
Qed.

Lemma main_after_server_log settings (options : Options)
  (sargv : option (list string)) (sched : list arrival) (w : world) :
  threads w = [] → immovable w = ∅ →
  ∃ r w' l, run (main_after_server settings options sargv sched) w = (r, w')
    ∧ out w' = out w ++ l
    ∧ forallb (tail_effect settings (truthy_list sargv)) l = true.
Proof.
  intros Hth Him. unfold main_after_server. rewrite run_bind.
  destruct (main_portal_summary settings options w Him)
    as (r & f & l & -> & Hl & _ & Hr).
  assert (Hl' : forallb (tail_effect settings (truthy_list sargv)) l = true).
  { rewrite forallb_forall in *. intros e He. unfold tail_effect.
    by rewrite (Hl e He). }
  destruct r as [pargv|e|]; [|by eexists (Raise e), _, l|done].
  rewrite run_bind.
  destruct (windows_fix_cases settings sargv (evolve w f l))
    as (r1 & -> & Hr1).
  destruct r1 as [sargv'|e|]; [|by eexists (Raise e), _, l|done].
  rewrite run_bind.
  destruct (windows_fix_cases settings pargv (evolve w f l))
    as (r2 & -> & Hr2).
  destruct r2 as [pargv'|e|]; [|by eexists (Raise e), _, l|done].
  destruct (start_services_log sargv' pargv' sched (evolve w f l) Hth)
    as (r3 & w3 & l3 & -> & Ho3 & Hl3).
  exists r3, w3, (l ++ l3). split; [done|]. split.
  { rewrite Ho3. cbn. by rewrite app_assoc. }
  rewrite forallb_app, Hl'. cbn. rewrite forallb_forall in *.
  intros e He. eapply services_effect_tail; eauto.
Qed.

Lemma main_as_blocks settings (options : Options) (args : list string)
  (sched : list arrival) (w : world) :
  args !! 0%nat = Some "start" →
  run (main settings options args sched) w =
  run (bind (main_server settings options) (λ server_argv,
         main_after_server settings options server_argv sched)) w.
Proof. apply main_started. Qed.

(** ** What [main] launches *)

Lemma reload_loop_out sargv pargv (sched : list arrival) (w : world) :
  queue w = [] →
  ∃ l, out (run (reload_loop sargv pargv sched) w).2 = out w ++ l.
Proof.
  intros Hq.
  destruct (reload_loop_log sargv pargv sched w Hq)
    as (r & w' & l & -> & _ & Ho & _).
  by exists l.
Qed.

Ltac loop_tail sargv pargv sched :=
  match goal with |- context [run (reload_loop _ _ _) ?w1] =>
    let l := fresh "l" in
    let Hl := fresh "Hl" in
    destruct (reload_loop_out sargv pargv sched w1 eq_refl) as (l & Hl);
    rewrite Hl; exists l
  end.

(** The first effects of [start_services]: the Server waiter if there is
    a Server argv, then for a Portal argv the test of the Portal flag and
    the waiter or the daemon. *)
Lemma start_services_launches sargv pargv (sched : list arrival) (w : world) :
  ∃ l, out (run (start_services sargv pargv sched) w).2
       = out w
         ++ (if truthy_list sargv then [StartThread server_waiter] else [])
         ++ (if truthy_list pargv
             then PathExists PORTAL_RESTART ::
                  match files w !! PORTAL_RESTART with
                  | Some _ => [ReadFile PORTAL_RESTART]
                  | None => []
                  end
                  ++ [if bool_decide (files w !! PORTAL_RESTART = Some "True")
                      then StartThread portal_waiter else Popen pargv]
             else [])
         ++ l.
Proof.
  unfold start_services.
  destruct (truthy_list sargv) eqn:Hs; destruct (truthy_list pargv) eqn:Hp;
    cbn [when]; mrun.
  - cbn [files emit with_SERVER with_threads with_queue].
    destruct (bool_decide (files w !! PORTAL_RESTART = Some "True")); mrun.
    + loop_tail sargv pargv sched. cbn. destruct (files w !! PORTAL_RESTART); lists_eq.
    + cbn [daemon_error emit evolve with_SERVER with_threads with_queue].
      destruct (daemon_error w) as [e|]; mrun.
      * exists []. cbn. destruct (files w !! PORTAL_RESTART); lists_eq.
      * cbn [SERVER with_PORTAL with_SERVER with_threads with_queue emit evolve].
        rewrite bool_decide_eq_true_2 by (by eexists).
        loop_tail sargv pargv sched. cbn.
        destruct (files w !! PORTAL_RESTART); lists_eq.
  - loop_tail sargv pargv sched. lists_eq.
  - cbn [files emit with_SERVER with_threads with_queue].
    destruct (bool_decide (files w !! PORTAL_RESTART = Some "True")); mrun.
    + loop_tail sargv pargv sched. cbn. destruct (files w !! PORTAL_RESTART); lists_eq.
    + cbn [daemon_error emit evolve with_SERVER with_threads with_queue].
      destruct (daemon_error w) as [e|]; mrun.
      * exists []. cbn. destruct (files w !! PORTAL_RESTART); lists_eq.
      * cbn [SERVER with_PORTAL with_queue emit evolve].
        destruct (bool_decide (is_Some (SERVER w))); mrun.
        -- loop_tail sargv pargv sched. cbn. destruct (files w !! PORTAL_RESTART); lists_eq.
        -- exists []. cbn. destruct (files w !! PORTAL_RESTART); lists_eq.
  - loop_tail sargv pargv sched. lists_eq.
Qed.

Lemma py_del_before_last {A} (a b c d : A) :
  py_del [a; b; c; d] (-2) = Some [a; b; d].
Proof. reflexivity. Qed.

Lemma py_del_before_last5 {A} (a b c d e : A) :
  py_del [a; b; c; d; e] (-2) = Some [a; b; c; e].
Proof. reflexivity. Qed.

(** The Windows fix on the argvs that the blocks of [main] produce: on
    Windows the [--pidfile] option goes, elsewhere nothing changes. *)
Lemma windows_fix_drops_pidfile settings (options : Options) (w : world) :
  let nt := bool_decide (os_name settings = "nt") in
  run (windows_fix settings (Some (server_argv_of settings options))) w
  = (Ok (Some ([TWISTED_BINARY settings; "--nodaemon"]
               ++ (if iserver options then []
                   else ["--logfile=" +:+ SERVER_LOGFILE settings])
               ++ (if nt then [] else ["--pidfile=" +:+ SERVER_PIDFILE])
               ++ ["--python=" +:+ SERVER_PY_FILE settings])), w)
  ∧ run (windows_fix settings (Some (portal_argv_of settings options))) w
    = (Ok (Some ([TWISTED_BINARY settings;
                  if iportal options then "--nodaemon"
                  else "--logfile=" +:+ PORTAL_LOGFILE settings]
                 ++ (if nt then [] else ["--pidfile=" +:+ PORTAL_PIDFILE])
                 ++ ["--python=" +:+ PORTAL_PY_FILE settings])), w).
Proof.
  intros nt. subst nt. unfold windows_fix, server_argv_of, portal_argv_of.
  destruct (bool_decide (os_name settings = "nt")); cbn [andb truthy_list].
  - destruct (iserver options); cbn [default];
      rewrite ?py_del_before_last, ?py_del_before_last5;
      cbn [index_or_raise]; mrun; done.
  - destruct (iserver options); mrun; done.
Qed.

Lemma windows_fix_main settings (options : Options)
  (argv : option (list string)) (w : world) :
  argv = None ∨ argv = Some (server_argv_of settings options)
  ∨ argv = Some (portal_argv_of settings options) →
  ∃ argv', run (windows_fix settings argv) w = (Ok argv', w)
         ∧ truthy_list argv' = truthy_list argv.
Proof.
  destruct (windows_fix_drops_pidfile settings options w) as [Hs Hp].
  intros [->|[->| ->]].
  - exists None. by rewrite windows_fix_none.
  - eexists. split; [exact Hs|].
    unfold server_argv_of. by destruct (iserver options).
  - eexists. split; [exact Hp|]. done.
Qed.

(** The blocks of [main] when their flag can be written: they end with
    no argv or with the argv of their process. *)
Lemma main_server_cases settings (options : Options) (w : world) :
  immovable w = ∅ → SERVER_RESTART ∉ unwritable w →
  ∃ sargv f l, run (main_server settings options) w = (Ok sargv, evolve w f l)
    ∧ (sargv = None ∨ sargv = Some (server_argv_of settings options))
    ∧ forallb (setup_effect SERVER_RESTART
                 (rotation_paths settings (SERVER_LOGFILE settings))) l = true
    ∧ (∀ q, q ≠ SERVER_RESTART →
            q ∉ rotation_paths settings (SERVER_LOGFILE settings) →
            f !! q = files w !! q).
Proof.
  intros Him Hro.
  destruct (main_server_summary settings options w Him)
    as (r & f & l & Hrun & Hl & Hframe & Hr).
  destruct r as [sargv|e|]; [|by destruct Hr|done].
  exists sargv, f, l. split; [done|]. split; [|done].
  pose proof (main_server_run settings options w Him) as H. cbv zeta in H.
  rewrite Hrun in H.
  destruct (truthy_str _ && negb _); [left; congruence|].
  destruct (noserver options); [left; congruence|].
  rewrite bool_decide_eq_false_2 in H by done.
  destruct H as (l' & H & _). right. congruence.
Qed.

Lemma main_portal_cases settings (options : Options) (w : world) :
  immovable w = ∅ → PORTAL_RESTART ∉ unwritable w →
  ∃ pargv f l, run (main_portal settings options) w = (Ok pargv, evolve w f l)
    ∧ (pargv = None ∨ pargv = Some (portal_argv_of settings options))
    ∧ forallb (setup_effect PORTAL_RESTART
                 (rotation_paths settings (PORTAL_LOGFILE settings))) l = true
    ∧ (∀ q, q ≠ PORTAL_RESTART →
            q ∉ rotation_paths settings (PORTAL_LOGFILE settings) →
            f !! q = files w !! q).
Proof.
  intros Him Hro.
  destruct (main_portal_summary settings options w Him)
    as (r & f & l & Hrun & Hl & Hframe & Hr).
  destruct r as [pargv|e|]; [|by destruct Hr|done].
  exists pargv, f, l. split; [done|]. split; [|done].
  pose proof (main_portal_run settings options w Him) as H. cbv zeta in H.
  rewrite Hrun in H.
  destruct (truthy_str _ && negb _); [left; congruence|].
  destruct (noportal options); [left; congruence|].
  rewrite bool_decide_eq_false_2 in H by done.
  destruct H as (l' & H & _). right. congruence.
Qed.

Lemma empty_is_false : truthy_str (Some "") = false.
Proof. reflexivity. Qed.

(** C10. An empty pid record is not a running process.  [get_pid]
    returns the empty string, which is false, for any pid file that is
    present and empty.  For the Server, [main] takes the launch path: the
    Server block prints no already-running notice, writes the restart
    flag, announces the start, rotates the log and hands a Server argv on,
    nothing in the log of [main] comes between, and when the Portal block
    after it does not fail on its flag the Server waiter thread is started.
    For the Portal likewise: when [main] is not ended by an unwritable
    flag before, the log of [main] holds the read of the empty record
    followed at once by the write of the flag, the announcement and the
    rotation, and later the start of the Portal, as a waiter thread or as
    a daemon. *)
Theorem empty_pid_record_is_not_running settings (options : Options)
  (args : list string) (sched : list arrival)
  (f : gmap string string) (ro : gset string) (de : option exn) :
  let w := fresh_world f ro de in
  let http := strip (HTTP_LOG_FILE settings) in
  let r := run (main settings options args sched) w in
  args !! 0%nat = Some "start" →
  (∀ pidfile w0, files w0 !! pidfile = Some "" →
     (run (get_pid pidfile) w0).1 = Ok (Some "")
     ∧ truthy_str (Some "") = false)
  ∧ (noserver options = false → f !! SERVER_PIDFILE = Some "" →
     SERVER_RESTART ∉ ro →
     (∃ l, run (main_server settings options) w
           = (Ok (Some (server_argv_of settings options)),
              evolve w (rotate_spec http
                          (rotate_spec (SERVER_LOGFILE settings)
                             (<[SERVER_RESTART:="True"]> f)))
                ([PathExists SERVER_PIDFILE; ReadFile SERVER_PIDFILE;
                  WriteFile SERVER_RESTART "True";
                  Print (server_start_message options);
                  PathExists (SERVER_LOGFILE settings)] ++ l)))
     ∧ (∃ l, out r.2
             = [PathExists SERVER_PIDFILE; ReadFile SERVER_PIDFILE;
                WriteFile SERVER_RESTART "True";
                Print (server_start_message options);
                PathExists (SERVER_LOGFILE settings)] ++ l)
     ∧ (PORTAL_RESTART ∉ ro → StartThread server_waiter ∈ out r.2))
  ∧ (noportal options = false → f !! PORTAL_PIDFILE = Some "" →
     SERVER_RESTART ∉ ro → PORTAL_RESTART ∉ ro →
     PORTAL_PIDFILE ∉ rotation_paths settings (SERVER_LOGFILE settings) →
     ∃ l1 l2, out r.2
              = l1 ++ [PathExists PORTAL_PIDFILE; ReadFile PORTAL_PIDFILE;
                       WriteFile PORTAL_RESTART (str_bool (iportal options));
                       Print (portal_start_message options);
                       PathExists (PORTAL_LOGFILE settings)] ++ l2
            ∧ ∃ e, e ∈ l2 ∧ launches e = true
                   ∧ concerns portal_waiter e = true).
Proof.
  intros w http r Hstart. subst r. rewrite main_as_blocks by done.
  rewrite run_bind.
  split; [|split].
  - intros pidfile w0 Hpid. by rewrite get_pid_run, Hpid.
  - intros Hno Hpid Hro.
    pose proof (main_server_run settings options w eq_refl) as H.
    cbv zeta in H.
    cbn [files w fresh_world] in H. rewrite Hpid, Hno, empty_is_false in H.
    cbn [andb unwritable] in H.
    rewrite (bool_decide_eq_false_2 (SERVER_RESTART ∈ ro)) in H by done.
    destruct H as (l & H & _).
    unfold pid_probe in H. rewrite Hpid in H. cbn [app] in H.
    split; [by exists l|]. rewrite H. split.
    + match goal with |- context [run _ ?w1] =>
        destruct (main_after_server_log settings options
                    (Some (server_argv_of settings options)) sched w1
                    eq_refl eq_refl)
          as (r & w' & l' & -> & Ho & _)
      end.
      cbn [snd]. rewrite Ho. cbn. by eexists.
    + intros Hpro. unfold main_after_server. rewrite run_bind.
      match goal with |- context [run (main_portal _ _) ?w1] =>
        destruct (main_portal_cases settings options w1 eq_refl Hpro)
          as (pargv & f2 & l2 & -> & Hshape & _ & _)
      end.
      rewrite run_bind.
      match goal with |- context [run (windows_fix _ ?a) ?w1] =>
        destruct (windows_fix_main settings options a w1) as (sargv' & -> & Hts);
          [by right; left|]
      end.
      rewrite run_bind.
      match goal with |- context [run (windows_fix _ ?a) ?w1] =>
        destruct (windows_fix_main settings options a w1) as (pargv' & -> & Htp);
          [by destruct Hshape; [left|right; right]|]
      end.
      match goal with |- context [run (start_services _ _ _) ?w1] =>
        destruct (start_services_launches sargv' pargv' sched w1) as (l3 & ->)
      end.
      rewrite Hts. unfold server_argv_of.
      assert (Ht : ∀ x (xs : list string), truthy_list (Some (x :: xs)) = true)
        by done.
      destruct (iserver options); rewrite Ht;
        apply elem_of_app; right; apply elem_of_app; left;
        apply list_elem_of_here.
  - intros Hno Hpid Hsro Hpro Hpaths.
    destruct (main_server_cases settings options w eq_refl Hsro)
      as (sargv & f1 & l1 & -> & Hshape & _ & Hframe).
    unfold main_after_server. rewrite run_bind.
    assert (Hf1 : f1 !! PORTAL_PIDFILE = Some "").
    { rewrite Hframe by done. exact Hpid. }
    pose proof (main_portal_run settings options (evolve w f1 l1) eq_refl) as H.
    cbv zeta in H. cbn [files evolve] in H.
    rewrite Hf1, Hno, empty_is_false in H. cbn [andb] in H.
    change (unwritable (evolve w f1 l1)) with ro in H.
    rewrite (bool_decide_eq_false_2 (PORTAL_RESTART ∈ ro)) in H by done.
    destruct H as (l2 & -> & _).
    unfold pid_probe. rewrite Hf1.
    rewrite run_bind.
    match goal with |- context [run (windows_fix _ ?a) ?w1] =>
      destruct (windows_fix_main settings options a w1) as (sargv' & -> & Hts);
        [by destruct Hshape; [left|right; left]|]
    end.
    rewrite run_bind.
    match goal with |- context [run (windows_fix _ ?a) ?w1] =>
      destruct (windows_fix_main settings options a w1) as (pargv' & -> & Htp);
        [by right; right|]
    end.
    match goal with |- context [run (start_services _ _ _) ?w1] =>
      destruct (start_services_launches sargv' pargv' sched w1) as (l3 & ->)
    end.
    rewrite Htp. cbn [truthy_list portal_argv_of].
    match goal with |- context [?a ++ ?b ++ (PathExists PORTAL_RESTART :: ?m ++ [?e]) ++ l3] =>
      exists l1, (l2 ++ b ++ (PathExists PORTAL_RESTART :: m ++ [e]) ++ l3);
      split; [lists_eq|];
      exists e; split;
        [apply elem_of_app; right; apply elem_of_app; right;
         apply elem_of_app; left; apply list_elem_of_further;
         apply elem_of_app; right; apply list_elem_of_here|]
    end.
    by destruct (bool_decide _).
Qed.

Lemma empty_pid_record_is_not_running_witness :
  let w := fresh_world {[ "server.pid" := ""; "portal.pid" := "" ]} ∅ None in
  let r := run (main sample_settings default_options ["start"] []) w in
  (run (get_pid SERVER_PIDFILE) w).1 = Ok (Some "")
  ∧ (run (get_pid PORTAL_PIDFILE) w).1 = Ok (Some "")
  ∧ truthy_str (Some "") = false
  ∧ (∃ l, out r.2
          = [PathExists SERVER_PIDFILE; ReadFile SERVER_PIDFILE;
             WriteFile SERVER_RESTART "True";
             Print (server_start_message default_options);
             PathExists (SERVER_LOGFILE sample_settings)] ++ l)
  ∧ StartThread server_waiter ∈ out r.2
  ∧ (∃ l1 l2, out r.2
              = l1 ++ [PathExists PORTAL_PIDFILE; ReadFile PORTAL_PIDFILE;
                       WriteFile PORTAL_RESTART "False";
                       Print (portal_start_message default_options);
                       PathExists (PORTAL_LOGFILE sample_settings)] ++ l2
            ∧ ∃ e, e ∈ l2 ∧ launches e = true
                   ∧ concerns portal_waiter e = true).
Proof.
  intros w r.
  destruct (empty_pid_record_is_not_running sample_settings default_options
              ["start"] [] {[ "server.pid" := ""; "portal.pid" := "" ]} ∅ None)
    as (H1 & H2 & H3); [reflexivity|].
  destruct H2 as (_ & H2 & H2'); [reflexivity | reflexivity | set_solver |].
  split; [apply H1; reflexivity|]. split; [apply H1; reflexivity|].
  split; [reflexivity|]. split; [exact H2|].
  split; [apply H2'; set_solver|].
  apply H3; [reflexivity | reflexivity | set_solver | set_solver |].
  vm_compute. intros H.
  repeat (apply elem_of_cons in H as [H|H]; [discriminate|]).
  by apply elem_of_nil in H.
Defined.







Lemma setup_effect_no_launch (flag : string) (paths : list string) (e : effect) :
  setup_effect flag paths e = true → launches e = false.
Proof. by destruct e. Qed.

Lemma setup_effect_write (flag : string) (paths : list string) (p s : string) :
  setup_effect flag paths (WriteFile p s) = true → p = flag.
Proof. cbn. by intros ?%bool_decide_eq_true. Qed.

Lemma services_effect_no_write sargv pargv (p s : string) (l : list effect) :
  forallb (services_effect sargv pargv) l = true → WriteFile p s ∉ l.
Proof.
  rewrite forallb_forall. intros H Hin.
  apply list_elem_of_In, H in Hin. done.
Qed.

Lemma forallb_setup_no_launch (flag : string) (paths : list string)
  (l : list effect) :
  forallb (setup_effect flag paths) l = true →
  forallb (λ e, negb (launches e)) l = true.
Proof.
  rewrite !forallb_forall. intros H e He.
  by rewrite (setup_effect_no_launch _ _ _ (H e He)).
Qed.

(** C6, amended. If [main] attempts to write a restart flag that cannot
    be written, the [IOError] leaves [main]: [start_services] is not
    reached and no process at all is started, neither the affected one nor
    the other. *)
Theorem flag_write_failure_aborts settings (options : Options)
  (args : list string) (sched : list arrival)
  (f : gmap string string) (ro : gset string) (de : option exn)
  (p s : string) :
  let r := run (main settings options args sched) (fresh_world f ro de) in
  p ∈ ro → WriteFile p s ∈ out r.2 →
  r.1 = Raise (IOError p)
  ∧ forallb (λ e, negb (launches e)) (out r.2) = true.
Proof.
  intros r Hro Hin. subst r.
  destruct (decide (args !! 0%nat = Some "start")) as [Hstart|Hstart].
  2:{ rewrite main_not_started in Hin by done. cbn in Hin. set_solver. }
  revert Hin. rewrite main_as_blocks by done. rewrite run_bind.
  set (w := fresh_world f ro de).
  destruct (main_server_summary settings options w eq_refl)
    as (r1 & f1 & l1 & -> & Hl1 & _ & Hr1).
  destruct r1 as [sargv|e|]; [| |done].
  2:{ destruct Hr1 as [-> Hu]. cbn. intros Hin.
      rewrite forallb_forall in Hl1.
      pose proof (Hl1 _ (proj1 (list_elem_of_In _ _) Hin)) as Hw.
      apply setup_effect_write in Hw as ->. split; [done|].
      eapply forallb_setup_no_launch. by apply forallb_forall. }
  unfold main_after_server. rewrite run_bind.
  destruct (main_portal_summary settings options (evolve w f1 l1) eq_refl)
    as (r2 & f2 & l2 & -> & Hl2 & _ & Hr2).
  rewrite evolve_evolve.
  destruct r2 as [pargv|e|]; [| |done].
  2:{ destruct Hr2 as [-> Hu]. cbn. intros Hin.
      apply elem_of_app in Hin as [Hin|Hin].
      { by apply Hr1 in Hin. }
      rewrite forallb_forall in Hl2.
      pose proof (Hl2 _ (proj1 (list_elem_of_In _ _) Hin)) as Hw.
      apply setup_effect_write in Hw as ->. split; [done|].
      rewrite forallb_app.
      rewrite (forallb_setup_no_launch _ _ _ Hl1).
      eapply forallb_setup_no_launch. by apply forallb_forall. }
  assert (Hnone : WriteFile p s ∉ l1 ++ l2).
  { intros [Hin|Hin]%elem_of_app; [by apply Hr1 in Hin|by apply Hr2 in Hin]. }
  rewrite run_bind.
  match goal with |- context [run (windows_fix _ _) ?w1] =>
    destruct (windows_fix_cases settings sargv w1) as (r3 & -> & Hr3)
  end.
  destruct r3 as [sargv'|e|]; [|cbn; intros; done|done].
  rewrite run_bind.
  match goal with |- context [run (windows_fix _ _) ?w1] =>
    destruct (windows_fix_cases settings pargv w1) as (r4 & -> & Hr4)
  end.
  destruct r4 as [pargv'|e|]; [|cbn; intros; done|done].
  match goal with |- context [run (start_services _ _ _) ?w1] =>
    destruct (start_services_log sargv' pargv' sched w1 eq_refl)
      as (r5 & w5 & l5 & -> & Ho & Hl5)
  end.
  cbn [snd]. rewrite Ho. cbn. intros [Hin|Hin]%elem_of_app; [done|].
  destruct (services_effect_no_write _ _ _ _ _ Hl5 Hin).
Qed.

Lemma flag_write_failure_aborts_witness :
  let r := run (main sample_settings default_options ["start"] [])
               (fresh_world ∅ {[ "portal.restart" ]} None) in
  r.1 = Raise (IOError "portal.restart")
  ∧ forallb (λ e, negb (launches e)) (out r.2) = true.
Proof.
  apply (flag_write_failure_aborts sample_settings default_options ["start"] []
           ∅ {[ "portal.restart" ]} None "portal.restart" "False").
  - set_solver.
  - vm_compute.
    repeat (first [apply list_elem_of_here | apply list_elem_of_further]).
Defined.

(** C6 as stated fails: with [server.restart] unwritable the Server is
    not started in any mode; [main] ends with the [IOError] and has started
    no thread and no process. *)
Lemma unwritable_flag_launches_nothing :
  let r := run (main sample_settings default_options ["start"]
                  [Arrival server_waiter (Exited 0) []])
               (fresh_world ∅ {[ "server.restart" ]} None) in
  r.1 = Raise (IOError "server.restart")
  ∧ out r.2 = [PathExists "server.pid"; WriteFile "server.restart" "True"]
  ∧ threads r.2 = [].
Proof. cbv zeta. repeat split; by vm_compute. Qed.

(** ** Concrete runs of the loop *)

Ltac concrete :=
  first [ reflexivity
        | by vm_compute
        | cbn; set_solver
        | vm_compute; set_solver ].

(** C1 as stated fails: with Server and Portal both monitored, the loop
    returns when the Server exits with code 1, while the Portal's waiter
    is still alive. *)
Lemma loop_returns_while_portal_is_monitored :
  let r := run (main sample_settings
                  {| noserver := false; noportal := false;
                     iserver := false; iportal := true |}
                  ["start"]
                  [Arrival server_waiter (Exited 1) []])
               (fresh_world ∅ ∅ None) in
  r.1 = Ok () ∧ threads r.2 = [portal_waiter].
Proof. cbv zeta. split; by vm_compute. Qed.

Lemma reload_loop_returns_on_first_stop_witness :
  let sargv := Some ["twistd"] in
  let pargv := Some ["twistd"] in
  let w := with_threads [server_waiter; portal_waiter] (fresh_world ∅ ∅ None) in
  let a := Arrival server_waiter (Exited 0) [] in
  let b := Arrival server_waiter (Exited 0) [("server.restart", Some "True")] in
  let c := Arrival server_waiter (PopenRaises (OSError "missing")) [] in
  (let r := run (reload_loop sargv pargv [a]) w in
   r.1 = Ok () ∧ threads r.2 = [portal_waiter])
  ∧ (∃ w1, run (reload_loop sargv pargv [b]) w = run (reload_loop sargv pargv []) w1
           ∧ queue w1 = [] ∧ threads w1 = [portal_waiter; server_waiter])
  ∧ (∃ w1, run (reload_loop sargv pargv [c]) w = run (reload_loop sargv pargv []) w1
           ∧ queue w1 = [] ∧ threads w1 = [portal_waiter])
  ∧ run (reload_loop sargv pargv [a]) (fresh_world ∅ ∅ None)
    = run (reload_loop sargv pargv []) (fresh_world ∅ ∅ None)
  ∧ (run (start_services None pargv [a]) (fresh_world ∅ ∅ None)).1 = Ok ().
Proof.
  intros sargv pargv w a b c.
  destruct (reload_loop_returns_on_first_stop sargv pargv)
    as (_ & H2 & H3 & H4 & H5 & H6).
  split; [|split; [|split; [|split]]].
  - apply (H2 a [] 0 w); concrete.
  - apply (H3 b [] 0 w); concrete.
  - apply (H4 c [] "missing" w); concrete.
  - apply (H5 a [] (fresh_world ∅ ∅ None)); concrete.
  - apply (H6 [a] (fresh_world ∅ ∅ None)); concrete.
Defined.

Lemma crash_is_never_relaunched_witness :
  let sargv := Some ["twistd"] in
  let a := Arrival server_waiter (Exited 1) [] in
  let w := with_threads [server_waiter]
             (fresh_world {[ "server.restart" := "True" ]} ∅ None) in
  let r := run (reload_loop sargv None [a]) w in
  files w !! "server.restart" = Some "True"
  ∧ r.1 = Ok ()
  ∧ out r.2 = [InThread server_waiter (Popen sargv);
               InThread server_waiter (QueuePut "server_stopped" 1);
               QueueGet "server_stopped" 1]
  ∧ server_waiter ∉ threads r.2.
Proof.
  intros sargv a w r. split; [reflexivity|].
  apply (crash_is_never_relaunched sargv None a [] 1 w); concrete.
Defined.

Lemma clean_exit_with_intent_relaunches_witness :
  let sargv := Some ["twistd"] in
  let a := Arrival server_waiter (Exited 0) [] in
  let w := with_threads [server_waiter]
             (fresh_world {[ "server.restart" := "True" ]} ∅ None) in
  let r := run (reload_loop sargv None [a]) w in
  r.1 = Blocks
  ∧ out r.2 = [InThread server_waiter (Popen sargv);
               InThread server_waiter (QueuePut "server_stopped" 0);
               QueueGet "server_stopped" 0;
               PathExists "server.restart";
               ReadFile "server.restart";
               Print "Evennia Server stopped. Restarting ...";
               StartThread server_waiter]
  ∧ files r.2 = {[ "server.restart" := "True" ]}
  ∧ threads r.2 = [server_waiter]
  ∧ queue r.2 = []
  ∧ (∀ sched, run (reload_loop sargv None (a :: sched)) w
              = run (reload_loop sargv None sched) r.2)
  ∧ (∀ sched, ∃ l, out (run (reload_loop sargv None (a :: sched)) w).2
                   = out r.2 ++ l).
Proof.
  intros sargv a w.
  apply (clean_exit_with_intent_relaunches sargv None a w); concrete.
Defined.

(** * Further properties of the runner *)

(** ** The flag files *)

(** X1. [set_restart_mode] changes its own file only; when the file cannot
    be written it raises and changes nothing; and a flag written for one
    name does not change what another name reads. *)
Theorem set_restart_mode_only_its_file (p : string) (b : bool) (w : world) :
  let r := run (set_restart_mode p b) w in
  (∀ q, q ≠ p → files r.2 !! q = files w !! q)
  ∧ (p ∈ unwritable w → r.1 = Raise (IOError p) ∧ files r.2 = files w)
  ∧ (p ∉ unwritable w → ∀ q, q ≠ p →
     (run (bind (set_restart_mode p b) (λ _, get_restart_mode q)) w).1
     = (run (get_restart_mode q) w).1).
Proof.
  cbv zeta. rewrite set_restart_mode_run. split; [|split].
  - intros q Hq. destruct (bool_decide _); cbn; [done|].
    by rewrite lookup_insert_ne.
  - intros Hro. by rewrite bool_decide_eq_true_2.
  - intros Hro q Hq. rewrite run_bind, set_restart_mode_run.
    rewrite bool_decide_eq_false_2 by done. cbn beta iota.
    rewrite !get_restart_mode_run. cbn.
    by rewrite lookup_insert_ne.
Qed.

Lemma set_restart_mode_only_its_file_witness :
  let w := fresh_world {[ "portal.restart" := "True" ]} {[ "server.restart" ]} None in
  ((run (set_restart_mode "server.restart" true) w).1 = Raise (IOError "server.restart")
   ∧ files (run (set_restart_mode "server.restart" true) w).2 = files w)
  ∧ (run (bind (set_restart_mode "portal.restart" false)
            (λ _, get_restart_mode "server.restart")) w).1
    = (run (get_restart_mode "server.restart") w).1.
Proof.
  intros w. split.
  - apply (set_restart_mode_only_its_file "server.restart" true w). set_solver.
  - apply (set_restart_mode_only_its_file "portal.restart" false w);
      [set_solver | by vm_compute].
Defined.

(** ** Rotations *)

Lemma rotate_spec_gone (p : string) (f : gmap string string) :
  rotate_spec p f !! p = None.
Proof.
  destruct (f !! p) as [c|] eqn:E.
  - by apply (rotate_spec_present p f c).
  - by rewrite rotate_spec_absent.
Qed.

(** X2. A second [cycle_logfile] of the same path right after a first one
    that returned changes nothing and cannot fail: the generation kept in
    [path.old] is not lost.  (The path must not be the [.old] sibling of
    the HTTP log.) *)
Theorem cycle_logfile_again_is_noop settings (path : string) (w : world) :
  path ≠ strip (HTTP_LOG_FILE settings) +:+ ".old" →
  let r1 := run (cycle_logfile settings path) w in
  r1.1 = Ok () →
  let r2 := run (cycle_logfile settings path) r1.2 in
  r2.1 = Ok () ∧ files r2.2 = files r1.2.
Proof.
  intros Hne r1 Hok r2. subst r2 r1.
  destruct (cycle_logfile_cases settings path w)
    as (r & f & l & Hrun & _ & _ & Hf & _ & _).
  rewrite Hrun in Hok |- *. cbn [fst snd] in *. subst r.
  set (http := strip (HTTP_LOG_FILE settings)) in *.
  match goal with |- context [run _ ?w1] =>
    destruct (cycle_logfile_cases settings path w1)
      as (r' & f' & l' & -> & _ & _ & Hf' & _ & Habs)
  end.
  cbn [fst snd files evolve] in *. fold http in Hf', Habs.
  assert (Hp : f !! path = None).
  { subst f. destruct (decide (path = http)) as [->|Hph].
    - apply rotate_spec_gone.
    - rewrite rotate_spec_frame by done. apply rotate_spec_gone. }
  assert (Hh : f !! http = None) by (subst f; apply rotate_spec_gone).
  rewrite (Habs Hp Hh) in Hf' |- *. split; [done|]. subst f'.
  rewrite (rotate_spec_absent path) by done.
  by apply rotate_spec_absent.
Qed.

Lemma cycle_logfile_again_is_noop_witness :
  let w := fresh_world {[ "a.log" := "new"; "a.log.old" := "old";
                          "logs/http_requests.log" := "requests" ]} ∅ None in
  let r1 := run (cycle_logfile sample_settings "a.log") w in
  let r2 := run (cycle_logfile sample_settings "a.log") r1.2 in
  r2.1 = Ok () ∧ files r2.2 = files r1.2.
Proof.
  apply (cycle_logfile_again_is_noop sample_settings "a.log"); by vm_compute.
Defined.

(** X3. Two calls of [cycle_logfile] in a row that both return, as [main]
    makes them for the Server log and the Portal log, rotate the HTTP log
    once: the second call leaves the HTTP log and its [.old] sibling as
    the first left them, so the rotated HTTP log is not overwritten.  (The
    second path and its [.old] sibling must not be the HTTP log or its
    sibling.) *)
Theorem http_log_rotated_once settings (p1 p2 : string) (w : world) :
  let http := strip (HTTP_LOG_FILE settings) in
  p2 ≠ http → p2 ≠ http +:+ ".old" → p2 +:+ ".old" ≠ http →
  let r1 := run (cycle_logfile settings p1) w in
  let r2 := run (cycle_logfile settings p2) r1.2 in
  r1.1 = Ok () → r2.1 = Ok () →
  files r2.2 !! http = None
  ∧ files r2.2 !! (http +:+ ".old") = files r1.2 !! (http +:+ ".old")
  ∧ (∀ c, files w !! http = Some c →
          p1 ≠ http → p1 ≠ http +:+ ".old" → p1 +:+ ".old" ≠ http →
          files r2.2 !! (http +:+ ".old") = Some c).
Proof.
  intros http H1 H2 H3 r1 r2 Hok1 Hok2. subst r2 r1.
  destruct (cycle_logfile_cases settings p1 w)
    as (r & f & l & Hrun & _ & _ & Hf & _ & _).
  rewrite Hrun in Hok1, Hok2 |- *. cbn [fst snd] in *. subst r.
  fold http in Hf.
  match goal with |- context [run (cycle_logfile settings p2) ?w1] =>
    destruct (cycle_logfile_cases settings p2 w1)
      as (r' & f' & l' & Hrun' & _ & _ & Hf' & _ & _)
  end.
  rewrite Hrun' in Hok2 |- *. cbn [fst snd files evolve] in *. subst r'.
  fold http in Hf'.
  assert (Hold : p2 +:+ ".old" ≠ http +:+ ".old").
  { intros E. by apply string_app_inv_tail in E. }
  assert (Hg : f !! http = None) by (subst f; apply rotate_spec_gone).
  assert (Hh : rotate_spec p2 f !! http = None).
  { by rewrite rotate_spec_frame. }
  subst f'. rewrite (rotate_spec_absent http) by done.
  split; [done|]. split.
  - by rewrite rotate_spec_frame.
  - intros c Hc Hp1 Hp1' Hp1''.
    rewrite rotate_spec_frame by done. subst f.
    apply rotate_spec_present. by rewrite rotate_spec_frame.
Qed.

Lemma http_log_rotated_once_witness :
  let w := fresh_world {[ "logs/server.log" := "s";
                          "logs/http_requests.log" := "requests";
                          "logs/http_requests.log.old" := "older" ]} ∅ None in
  let r1 := run (cycle_logfile sample_settings "logs/server.log") w in
  let r2 := run (cycle_logfile sample_settings "logs/portal.log") r1.2 in
  files r2.2 !! "logs/http_requests.log" = None
  ∧ files r2.2 !! "logs/http_requests.log.old"
    = files r1.2 !! "logs/http_requests.log.old"
  ∧ files r2.2 !! "logs/http_requests.log.old" = Some "requests".
Proof.
  intros w r1 r2.
  destruct (http_log_rotated_once sample_settings "logs/server.log"
              "logs/portal.log" w) as (Ha & Hb & Hc);
    [by vm_compute | by vm_compute | by vm_compute
    | by vm_compute | by vm_compute |].
  split; [exact Ha|]. split; [exact Hb|].
  apply Hc; [reflexivity | by vm_compute | by vm_compute | by vm_compute].
Defined.

(** X4. [os.rename] does not replace a file on Windows, and [cycle_logfile]
    never asks it to: it removes [path.old] first.  So when none of the
    paths it moves is immovable [cycle_logfile] returns, on every
    platform, whatever files exist. *)
Theorem cycle_logfile_never_replaces settings (p : string) (w : world) :
  (∀ src dst c, os_name settings = "nt" → files w !! src = Some c →
                src ∉ immovable w → is_Some (files w !! dst) →
                run (os_rename settings src dst) w
                = (Raise (OSError dst), emit (Rename src dst) w))
  ∧ ((∀ q, q ∈ rotation_paths settings p → q ∉ immovable w) →
     (run (cycle_logfile settings p) w).1 = Ok ()).
Proof.
  split.
  - intros src dst c Hnt Hsrc Him Hdst. rewrite run_os_rename, Hsrc.
    rewrite (bool_decide_eq_false_2 (src ∈ immovable w)) by done.
    rewrite (bool_decide_eq_true_2 (os_name settings = "nt")) by done.
    rewrite (bool_decide_eq_true_2 (is_Some (files w !! dst))) by done.
    by rewrite orb_true_r.
  - intros Hq.
    destruct (cycle_logfile_cases settings p w)
      as (r & f & l & -> & _ & _ & _ & Hok & _).
    by rewrite Hok.
Qed.

Lemma cycle_logfile_never_replaces_witness :
  let settings := {| SRC_DIR := "C:/evennia/src";
                     SERVER_LOG_FILE := "logs/server.log";
                     PORTAL_LOG_FILE := "logs/portal.log";
                     HTTP_LOG_FILE := "logs/http_requests.log";
                     os_name := "nt";
                     os_path_join := λ a b, a +:+ "/" +:+ b |} in
  let w := fresh_world {[ "logs/server.log" := "new";
                          "logs/server.log.old" := "old" ]} ∅ None in
  run (os_rename settings "logs/server.log" "logs/server.log.old") w
  = (Raise (OSError "logs/server.log.old"),
     emit (Rename "logs/server.log" "logs/server.log.old") w)
  ∧ (run (cycle_logfile settings "logs/server.log") w).1 = Ok ().
Proof.
  intros settings w.
  destruct (cycle_logfile_never_replaces settings "logs/server.log" w)
    as [H1 H2].
  split.
  - apply (H1 _ _ "new"); [reflexivity | reflexivity | set_solver | by eexists].
  - apply H2. intros q _. set_solver.
Defined.



(** ** The reload loop as a whole *)

Lemma apply_writes_nil (f : gmap string string) : apply_writes [] f = f.
Proof. reflexivity. Qed.

Lemma reload_iteration_shape (x : waiter) (rc : Z) (w : world) :
  ∃ fl w1, run (reload_iteration (waiter_message x) rc) w = (Ok fl, w1)
    ∧ files w1 = files w ∧ queue w1 = queue w
    ∧ threads w1 = match fl with
                   | Continue => threads w ++ [x]
                   | Break => threads w
                   end.
Proof.
  destruct (decide (rc = 0)) as [->|Hrc].
  - destruct (decide (files w !! waiter_restart_file x = Some "True"))
      as [Hf|Hf].
    + destruct (reload_iteration_relaunch x w Hf)
        as (w1 & -> & Hfi & Hq & _ & _ & Ht & _).
      by exists Continue, w1.
    + destruct (reload_iteration_stop x w Hf) as (l & -> & _).
      by eexists Break, _.
  - rewrite (reload_iteration_crash x rc w Hrc). by exists Break, w.
Qed.

(** One arrival, whatever it is: the loop goes on or returns from a world
    whose queue is empty again. *)
Lemma reload_loop_step sargv pargv (a : arrival) (sched : list arrival)
  (w : world) :
  queue w = [] →
  ∃ w1, (run (reload_loop sargv pargv (a :: sched)) w
         = run (reload_loop sargv pargv sched) w1
         ∨ run (reload_loop sargv pargv (a :: sched)) w = (Ok (), w1))
    ∧ queue w1 = []
    ∧ (((who a ∉ threads w) ∧ w1 = w)
       ∨ (who a ∈ threads w
          ∧ files w1 = apply_writes (child_writes a) (files w)
          ∧ (threads w1 = filter (λ x, x ≠ who a) (threads w)
             ∨ threads w1 = filter (λ x, x ≠ who a) (threads w) ++ [who a]))).
Proof.
  intros Hq.
  destruct (decide (who a ∈ threads w)) as [Hin|Hout].
  - destruct (outcome a) as [rc|e] eqn:Ho.
    + rewrite (reload_loop_event sargv pargv a sched rc w Hq Hin Ho).
      cbv zeta.
      match goal with |- context [run (reload_iteration _ _) ?w0] =>
        destruct (reload_iteration_shape (who a) rc w0)
          as (fl & w1 & -> & Hf & Hq1 & Ht)
      end.
      cbn in Hf, Hq1, Ht. exists w1.
      destruct fl; (split; [auto|]); (split; [done|]); right; auto.
    + cbn [reload_loop]. rewrite run_bind.
      assert (Hb : bool_decide (who a ∈ threads w) = true)
        by by apply bool_decide_eq_true.
      assert (∃ l, run (child_ends sargv pargv a) w
                   = (Ok (),
                      World (apply_writes (child_writes a) (files w))
                        (unwritable w) (immovable w) (daemon_error w) (SERVER w) (PORTAL w)
                        (queue w) (filter (λ x, x ≠ who a) (threads w))
                        (out w ++ l))) as (l & ->).
      { sunfold. munfold. cbn. rewrite Hb, Ho.
        destruct (who a), e; cbn; eexists; reflexivity. }
      rewrite run_bind. unfold queue_get. rewrite run_bind, run_get_world.
      cbn beta iota. cbn [queue]. rewrite Hq, run_ret.
      eexists. split; [left; reflexivity|]. split; [done|]. right. auto.
  - exists w. split; [left|by auto].
    cbn [reload_loop]. rewrite run_bind, child_ends_not_alive by done.
    rewrite run_bind. unfold queue_get. rewrite run_bind, run_get_world.
    cbn beta iota. by rewrite Hq, run_ret.
Qed.

Lemma NoDup_filter_snoc (x : waiter) (ts : list waiter) :
  NoDup ts → NoDup (filter (λ y, y ≠ x) ts ++ [x]).
Proof.
  intros Hnd. apply NoDup_app. split; [by apply NoDup_filter|].
  split; [|apply NoDup_singleton].
  intros y Hy Hx. apply list_elem_of_filter in Hy as [Hne _].
  apply list_elem_of_singleton in Hx. done.
Qed.

Lemma reload_loop_nodup sargv pargv (sched : list arrival) (w : world) :
  queue w = [] → NoDup (threads w) →
  NoDup (threads (run (reload_loop sargv pargv sched) w).2).
Proof.
  revert w. induction sched as [|a sched IH]; intros w Hq Hnd; [done|].
  destruct (reload_loop_step sargv pargv a sched w Hq)
    as (w1 & Hrun & Hq1 & Hcase).
  assert (Hnd1 : NoDup (threads w1)).
  { destruct Hcase as [[_ ->]|(_ & _ & [-> | ->])]; [done| |].
    - by apply NoDup_filter.
    - by apply NoDup_filter_snoc. }
  destruct Hrun as [-> | ->]; [by apply IH|done].
Qed.


(** The loop writes no file: when no child writes any, the files are at
    the end what they were at the start. *)
Lemma reload_loop_keeps_files sargv pargv (sched : list arrival) (w : world) :
  queue w = [] → Forall (λ a, child_writes a = []) sched →
  files (run (reload_loop sargv pargv sched) w).2 = files w.
Proof.
  revert w. induction sched as [|a sched IH]; intros w Hq Hall; [done|].
  apply Forall_cons in Hall as [Ha Hall].
  destruct (reload_loop_step sargv pargv a sched w Hq)
    as (w1 & Hrun & Hq1 & Hcase).
  assert (Hf : files w1 = files w).
  { destruct Hcase as [[_ ->]|(_ & -> & _)]; [done|]. by rewrite Ha. }
  destruct Hrun as [-> | ->]; [|done]. by rewrite IH.
Qed.


(** How [start_services] reaches the loop: it has changed no file, the
    queue is empty and every waiter it started is alive once. *)
Lemma start_services_entry sargv pargv (sched : list arrival) (w : world) :
  threads w = [] →
  ∃ w1, files w1 = files w ∧ queue w1 = [] ∧ NoDup (threads w1)
    ∧ (run (start_services sargv pargv sched) w
       = run (reload_loop sargv pargv sched) w1
       ∨ ∃ r, run (start_services sargv pargv sched) w = (r, w1)).
Proof.
  intros Hth. unfold start_services.
  destruct (truthy_list sargv) eqn:Hs; destruct (truthy_list pargv) eqn:Hp;
    cbn [when]; mrun.
  - match goal with |- context [bool_decide ?P] =>
      destruct (bool_decide P) end; mrun.
    + eexists. split; [|split; [|split; [|left; reflexivity]]]; cbn; try done.
      rewrite Hth. cbn. repeat constructor; set_solver.
    + cbn [daemon_error emit evolve with_SERVER with_threads with_queue].
      destruct (daemon_error w) as [e|]; mrun.
      * eexists. split; [|split; [|split; [|right; eexists; reflexivity]]];
          cbn; try done.
        rewrite Hth. cbn. repeat constructor; set_solver.
      * cbn. eexists.
        split; [|split; [|split; [|left; reflexivity]]]; cbn; try done.
        rewrite Hth. cbn. repeat constructor; set_solver.
  - eexists. split; [|split; [|split; [|left; reflexivity]]]; cbn; try done.
    rewrite Hth. cbn. repeat constructor; set_solver.
  - match goal with |- context [bool_decide ?P] =>
      destruct (bool_decide P) end; mrun.
    + eexists. split; [|split; [|split; [|left; reflexivity]]]; cbn; try done.
      rewrite Hth. cbn. repeat constructor; set_solver.
    + cbn [daemon_error emit evolve with_SERVER with_threads with_queue].
      destruct (daemon_error w) as [e|]; mrun.
      * eexists. split; [|split; [|split; [|right; eexists; reflexivity]]];
          cbn; try done.
        rewrite Hth. constructor.
      * cbn. destruct (bool_decide (is_Some (SERVER w))); mrun.
        -- eexists.
           split; [|split; [|split; [|left; reflexivity]]]; cbn; try done.
           rewrite Hth. constructor.
        -- eexists.
           split; [|split; [|split; [|right; eexists; reflexivity]]];
             cbn; try done.
           rewrite Hth. constructor.
  - eexists. split; [|split; [|split; [|left; reflexivity]]]; cbn; try done.
    rewrite Hth. constructor.
Qed.

Lemma services_effect_reads_only sargv pargv (q : string) (e : effect) :
  services_effect sargv pargv e = true → touches q e = false.
Proof. by destruct e. Qed.

(** X5. [start_services], the reload loop included, never writes, removes
    or renames a file: the restart flags are only read.  When no child
    writes a file either, the files are at the end what they were at the
    start; and no waiter is ever alive twice. *)
Theorem start_services_reads_only sargv pargv (sched : list arrival)
  (w : world) :
  threads w = [] →
  let r := run (start_services sargv pargv sched) w in
  (∃ l, out r.2 = out w ++ l ∧ Forall (λ e, ∀ q, touches q e = false) l)
  ∧ (Forall (λ a, child_writes a = []) sched → files r.2 = files w)
  ∧ NoDup (threads r.2).
Proof.
  intros Hth r. subst r. split; [|split].
  - destruct (start_services_log sargv pargv sched w Hth)
      as (r & w' & l & -> & Ho & Hl).
    exists l. split; [done|]. apply Forall_forall. intros e He q.
    rewrite forallb_forall in Hl. apply list_elem_of_In, Hl in He.
    by eapply services_effect_reads_only.
  - intros Hall.
    destruct (start_services_entry sargv pargv sched w Hth)
      as (w1 & Hf & Hq & _ & [-> | (r & ->)]); [|done].
    by rewrite reload_loop_keeps_files.
  - destruct (start_services_entry sargv pargv sched w Hth)
      as (w1 & _ & Hq & Hnd & [-> | (r & ->)]); [|done].
    by apply reload_loop_nodup.
Qed.

Lemma start_services_reads_only_witness :
  let sargv := Some ["twistd"; "--nodaemon"] in
  let pargv := Some ["twistd"] in
  let sched := [Arrival server_waiter (Exited 0) [];
                Arrival server_waiter (Exited 3) []] in
  let w := fresh_world {[ "server.restart" := "True" ]} ∅ None in
  let r := run (start_services sargv pargv sched) w in
  (∃ l, out r.2 = out w ++ l ∧ Forall (λ e, ∀ q, touches q e = false) l)
  ∧ files r.2 = files w
  ∧ NoDup (threads r.2).
Proof.
  intros sargv pargv sched w r.
  destruct (start_services_reads_only sargv pargv sched w eq_refl)
    as (H1 & H2 & H3).
  split; [exact H1|]. split; [|exact H3].
  apply H2. repeat constructor.
Defined.


(** X6. A clean exit without intent: exit code zero while the flag of the
    process, as its child left it, does not read exactly True (it reads
    False, is absent, or holds anything else).  The loop returns; it has
    looked at the flag of that process only, started no thread, and the
    process is no longer monitored. *)
Theorem clean_exit_without_intent_stops sargv pargv (a : arrival)
  (sched : list arrival) (w : world) :
  queue w = [] → who a ∈ threads w → outcome a = Exited 0 →
  apply_writes (child_writes a) (files w) !! waiter_restart_file (who a)
    ≠ Some "True" →
  let f := apply_writes (child_writes a) (files w) in
  let r := run (reload_loop sargv pargv (a :: sched)) w in
  r.1 = Ok ()
  ∧ out r.2 = out w ++
      [InThread (who a) (Popen (waiter_argv sargv pargv (who a)));
       InThread (who a) (QueuePut (waiter_message (who a)) 0);
       QueueGet (waiter_message (who a)) 0;
       PathExists (waiter_restart_file (who a))]
      ++ match f !! waiter_restart_file (who a) with
         | Some _ => [ReadFile (waiter_restart_file (who a))]
         | None => []
         end
  ∧ files r.2 = f
  ∧ who a ∉ threads r.2.
Proof.
  intros Hq Hin Ho Hf f r. subst r.
  rewrite (reload_loop_event sargv pargv a sched 0 w Hq Hin Ho). cbv zeta.
  match goal with |- context [run (reload_iteration _ _) ?w0] =>
    destruct (reload_iteration_stop (who a) w0 Hf) as (l & -> & ->)
  end.
  cbn. split; [done|]. split; [by rewrite <- app_assoc|]. split; [done|].
  intros Hx. apply list_elem_of_filter in Hx as [Hne _]. by apply Hne.
Qed.

Lemma clean_exit_without_intent_stops_witness :
  let sargv := Some ["twistd"] in
  let a := Arrival server_waiter (Exited 0) [("server.restart", Some "False")] in
  let w := with_threads [server_waiter]
             (fresh_world {[ "server.restart" := "True" ]} ∅ None) in
  let r := run (reload_loop sargv None [a]) w in
  r.1 = Ok ()
  ∧ out r.2 = [InThread server_waiter (Popen sargv);
               InThread server_waiter (QueuePut "server_stopped" 0);
               QueueGet "server_stopped" 0;
               PathExists "server.restart"; ReadFile "server.restart"]
  ∧ files r.2 = {[ "server.restart" := "False" ]}
  ∧ server_waiter ∉ threads r.2.
Proof.
  intros sargv a w r.
  destruct (clean_exit_without_intent_stops sargv None a [] w)
    as (H1 & H2 & H3 & H4); [concrete | concrete | concrete | by vm_compute |].
  split; [exact H1|]. split; [exact H2|]. split; [|exact H4].
  etrans; [exact H3|]. by vm_compute.
Defined.

Lemma reload_loop_crash sargv pargv (a : arrival) (sched : list arrival)
  (rc : Z) (w : world) :
  queue w = [] → who a ∈ threads w → outcome a = Exited rc → rc ≠ 0 →
  run (reload_loop sargv pargv (a :: sched)) w =
  (Ok (),
   World (apply_writes (child_writes a) (files w)) (unwritable w)
     (immovable w) (daemon_error w) (SERVER w) (PORTAL w) []
     (filter (λ x, x ≠ who a) (threads w))
     (out w ++ [InThread (who a) (Popen (waiter_argv sargv pargv (who a)));
                InThread (who a) (QueuePut (waiter_message (who a)) rc);
                QueueGet (waiter_message (who a)) rc])).
Proof.
  intros Hq Hin Ho Hrc.
  rewrite (reload_loop_event sargv pargv a sched rc w Hq Hin Ho). cbv zeta.
  by rewrite reload_iteration_crash.
Qed.

(** X7. Reloads until a crash: while its flag reads True, a process that
    exits cleanly [n] times and then with a non-zero code is relaunched
    exactly [n] times; then the loop returns and ignores the rest of the
    schedule.  The supervisor never resets the flag and changes no file. *)
Theorem relaunched_until_crash sargv pargv (x : waiter) (n : nat) (rc : Z)
  (sched : list arrival) (w : world) :
  queue w = [] → threads w = [x] →
  files w !! waiter_restart_file x = Some "True" → rc ≠ 0 →
  let reload := [InThread x (Popen (waiter_argv sargv pargv x));
                 InThread x (QueuePut (waiter_message x) 0);
                 QueueGet (waiter_message x) 0;
                 PathExists (waiter_restart_file x);
                 ReadFile (waiter_restart_file x);
                 Print (waiter_notice x);
                 StartThread x] in
  let r := run (reload_loop sargv pargv
                  (replicate n (Arrival x (Exited 0) [])
                   ++ Arrival x (Exited rc) [] :: sched)) w in
  r.1 = Ok ()
  ∧ out r.2 = out w ++ concat (replicate n reload)
              ++ [InThread x (Popen (waiter_argv sargv pargv x));
                  InThread x (QueuePut (waiter_message x) rc);
                  QueueGet (waiter_message x) rc]
  ∧ files r.2 = files w
  ∧ threads r.2 = [].
Proof.
  intros Hq Ht Hf Hrc reload r. subst r.
  assert (Hfx : filter (λ y, y ≠ x) [x] = []).
  { by rewrite filter_cons_False, filter_nil by (intros H; by apply H). }
  revert w Hq Ht Hf. induction n as [|n IH]; intros w Hq Ht Hf.
  - cbn [replicate app concat].
    rewrite (reload_loop_crash sargv pargv (Arrival x (Exited rc) []) sched rc w)
      by (done || (cbn; rewrite Ht; set_solver)).
    cbn. rewrite Ht, Hfx. done.
  - cbn [replicate app concat].
    destruct (reload_loop_relaunch sargv pargv (Arrival x (Exited 0) [])
                (replicate n (Arrival x (Exited 0) [])
                 ++ Arrival x (Exited rc) [] :: sched) w)
      as (w1 & -> & Ho & Hf1 & Ht1 & Hq1);
      [done | cbn; rewrite Ht; set_solver | done | done |].
    cbn in Ho, Hf1, Ht1. rewrite Ht, Hfx in Ht1. cbn in Ht1.
    destruct (IH w1 Hq1 Ht1) as (H1 & H2 & H3 & H4); [by rewrite Hf1|].
    split; [exact H1|]. split; [|split; [by rewrite H3|exact H4]].
    rewrite H2, Ho. by rewrite <- !app_assoc.
Qed.

Lemma relaunched_until_crash_witness :
  let sargv := Some ["twistd"] in
  let w := with_threads [server_waiter]
             (fresh_world {[ "server.restart" := "True" ]} ∅ None) in
  let r := run (reload_loop sargv None
                  (replicate 2 (Arrival server_waiter (Exited 0) [])
                   ++ Arrival server_waiter (Exited 1) []
                      :: [Arrival server_waiter (Exited 0) []])) w in
  r.1 = Ok ()
  ∧ length (out r.2) = 17%nat
  ∧ files r.2 = files w
  ∧ threads r.2 = [].
Proof.
  intros sargv w r.
  destruct (relaunched_until_crash sargv None server_waiter 2 1
              [Arrival server_waiter (Exited 0) []] w)
    as (H1 & H2 & H3 & H4); [concrete | concrete | concrete | done |].
  split; [exact H1|]. split; [|split; [exact H3|exact H4]].
  subst r. rewrite H2. reflexivity.
Defined.

(** X8. When the Portal daemon cannot be started the exception leaves
    [start_services], and so [main], after the Server's waiter thread has
    already been started: the Server is then running unmonitored. *)
Theorem daemon_failure_leaves_server_unmonitored sargv pargv
  (sched : list arrival) (e : exn) (w : world) :
  truthy_list sargv = true → truthy_list pargv = true →
  files w !! PORTAL_RESTART ≠ Some "True" → daemon_error w = Some e →
  let r := run (start_services sargv pargv sched) w in
  r.1 = Raise e
  ∧ threads r.2 = threads w ++ [server_waiter]
  ∧ out r.2 = out w ++ [StartThread server_waiter;
                        PathExists PORTAL_RESTART]
              ++ match files w !! PORTAL_RESTART with
                 | Some _ => [ReadFile PORTAL_RESTART]
                 | None => []
                 end
              ++ [Popen pargv].
Proof.
  intros Hs Hp Hf Hd r. subst r. unfold start_services.
  rewrite Hs, Hp. cbn [when]. mrun.
  rewrite bool_decide_eq_false_2 by done. mrun.
  cbn [daemon_error emit evolve with_SERVER with_threads with_queue].
  rewrite Hd. cbn. split; [done|]. split; [done|].
  rewrite <- !app_assoc. done.
Qed.

Lemma daemon_failure_leaves_server_unmonitored_witness :
  let sargv := Some ["twistd"; "--nodaemon"] in
  let pargv := Some ["twistd"] in
  let w := fresh_world {[ "portal.restart" := "False" ]} ∅
             (Some (OSError "No such file or directory")) in
  let r := run (start_services sargv pargv []) w in
  r.1 = Raise (OSError "No such file or directory")
  ∧ threads r.2 = [server_waiter]
  ∧ out r.2 = [StartThread server_waiter; PathExists PORTAL_RESTART;
               ReadFile PORTAL_RESTART; Popen pargv].
Proof.
  intros sargv pargv w r.
  apply (daemon_failure_leaves_server_unmonitored sargv pargv [] _ w);
    concrete.
Defined.

(** ** [main] at its edges *)

Lemma main_server_off settings (options : Options) (w : world) :
  immovable w = ∅ →
  noserver options || truthy_str (files w !! SERVER_PIDFILE) = true →
  ∃ l, run (main_server settings options) w = (Ok None, evolve w (files w) l)
     ∧ forallb (λ e, negb (launches e)) l = true.
Proof.
  intros Him Hoff.
  pose proof (main_server_run settings options w Him) as H. cbv zeta in H.
  destruct (truthy_str _ && negb _) eqn:Hskip.
  { eexists. split; [exact H|]. rewrite forallb_app. cbn.
    unfold pid_probe. by destruct (files w !! _). }
  destruct (noserver options) eqn:Hno.
  { eexists. split; [exact H|]. unfold pid_probe. by destruct (files w !! _). }
  cbn in Hoff. rewrite Hoff in Hskip. done.
Qed.

Lemma main_portal_off settings (options : Options) (w : world) :
  immovable w = ∅ →
  noportal options || truthy_str (files w !! PORTAL_PIDFILE) = true →
  ∃ l, run (main_portal settings options) w = (Ok None, evolve w (files w) l)
     ∧ forallb (λ e, negb (launches e)) l = true.
Proof.
  intros Him Hoff.
  pose proof (main_portal_run settings options w Him) as H. cbv zeta in H.
  destruct (truthy_str _ && negb _) eqn:Hskip.
  { eexists. split; [exact H|]. rewrite forallb_app. cbn.
    unfold pid_probe. by destruct (files w !! _). }
  destruct (noportal options) eqn:Hno.
  { eexists. split; [exact H|]. unfold pid_probe. by destruct (files w !! _). }
  cbn in Hoff. rewrite Hoff in Hskip. done.
Qed.

(** X9. With nothing to start (each process disabled on the command line
    or skipped for its pid record) [main] does not return: it enters the
    reload loop with no waiter and blocks for ever, whatever the schedule,
    having changed no file and started nothing. *)
Theorem main_with_nothing_to_start_blocks settings (options : Options)
  (args : list string) (sched : list arrival)
  (f : gmap string string) (ro : gset string) (de : option exn) :
  args !! 0%nat = Some "start" →
  noserver options || truthy_str (f !! SERVER_PIDFILE) = true →
  noportal options || truthy_str (f !! PORTAL_PIDFILE) = true →
  let r := run (main settings options args sched) (fresh_world f ro de) in
  r.1 = Blocks
  ∧ files r.2 = f
  ∧ threads r.2 = []
  ∧ forallb (λ e, negb (launches e)) (out r.2) = true.
Proof.
  intros Hstart Hs Hp r. subst r. rewrite main_as_blocks by done.
  rewrite run_bind.
  destruct (main_server_off settings options (fresh_world f ro de) eq_refl Hs)
    as (l1 & -> & Hl1).
  unfold main_after_server. rewrite run_bind.
  match goal with |- context [run (main_portal _ _) ?w1] =>
    destruct (main_portal_off settings options w1 eq_refl Hp) as (l2 & -> & Hl2)
  end.
  rewrite run_bind, windows_fix_none, run_bind, windows_fix_none.
  unfold start_services. cbn [truthy_list when]. mrun.
  rewrite reload_loop_nobody by done. cbn.
  repeat split; try done. by rewrite forallb_app, Hl1, Hl2.
Qed.

Lemma main_with_nothing_to_start_blocks_witness :
  let f : gmap string string := {[ "server.pid" := "4711" ]} in
  let options := {| noserver := false; noportal := true;
                    iserver := false; iportal := false |} in
  let r := run (main sample_settings options ["start"]
                  [Arrival server_waiter (Exited 0) []])
               (fresh_world f ∅ None) in
  r.1 = Blocks
  ∧ files r.2 = f
  ∧ threads r.2 = []
  ∧ forallb (λ e, negb (launches e)) (out r.2) = true.
Proof.
  intros f options.
  apply (main_with_nothing_to_start_blocks sample_settings options ["start"]
           [Arrival server_waiter (Exited 0) []] f ∅ None); by vm_compute.
Defined.

(** ** A rotation that fails *)

Lemma rotation_effect_no_launch (ps : list string) (l : list effect) :
  forallb (rotation_effect ps) l = true →
  forallb (λ e, negb (launches e)) l = true.
Proof.
  rewrite !forallb_forall. intros Hx e He. specialize (Hx e He). by destruct e.
Qed.

Lemma cycle_logfile_fails settings (p c : string) (w : world) :
  files w !! p = Some c →
  p ∈ immovable w ∨ p +:+ ".old" ∈ immovable w →
  ∃ q f l, run (cycle_logfile settings p) w
           = (Raise (OSError q), evolve w f (PathExists p :: l))
    ∧ (q = p ∨ q = p +:+ ".old")
    ∧ forallb (rotation_effect [p; p +:+ ".old"]) l = true
    ∧ (∀ k, k ≠ p → k ≠ p +:+ ".old" → f !! k = files w !! k).
Proof.
  intros Hp Him. rewrite cycle_logfile_blocks, run_bind.
  destruct (rotate_block_cases settings p w)
    as (r & f & l & -> & Hl & Hframe & Hr & _ & _ & Hfail).
  destruct r as [[]|e|]; [|clear Hfail|done].
  - destruct Hfail; [by eexists|done|done].
  - destruct Hr as [-> | ->]; eexists _, f, l; (split; [reflexivity|]); auto.
Qed.

(** X10. A log rotation that fails ends [main]: [cycle_logfile] is called
    without any handler.  When the Server log exists and it, or its [.old]
    sibling, cannot be moved, [main] ends with the [OSError]; it has
    already written [server.restart] = True, which is left behind, and it
    starts nothing, neither the Server nor the Portal. *)
Theorem rotation_failure_aborts_main settings (options : Options)
  (args : list string) (sched : list arrival)
  (f : gmap string string) (ro im : gset string) (de : option exn)
  (c : string) :
  let slog := SERVER_LOGFILE settings in
  let r := run (main settings options args sched)
               (with_immovable im (fresh_world f ro de)) in
  args !! 0%nat = Some "start" → noserver options = false →
  truthy_str (f !! SERVER_PIDFILE) = false → SERVER_RESTART ∉ ro →
  f !! slog = Some c → slog ≠ SERVER_RESTART →
  slog +:+ ".old" ≠ SERVER_RESTART →
  slog ∈ im ∨ slog +:+ ".old" ∈ im →
  (r.1 = Raise (OSError slog) ∨ r.1 = Raise (OSError (slog +:+ ".old")))
  ∧ files r.2 !! SERVER_RESTART = Some "True"
  ∧ threads r.2 = []
  ∧ forallb (λ e, negb (launches e)) (out r.2) = true.
Proof.
  intros slog r Hstart Hno Hpid Hro Hlog Hne1 Hne2 Him. subst r slog.
  rewrite main_started by done. rewrite run_bind.
  unfold main_server. rewrite run_bind, get_pid_run. cbn beta iota.
  cbn [files with_immovable fresh_world]. rewrite Hpid, Hno.
  cbn [andb negb]. mrun.
  rewrite set_restart_mode_run. cbn [unwritable evolve with_immovable fresh_world].
  rewrite (bool_decide_eq_false_2 (SERVER_RESTART ∈ ro)) by done.
  cbn beta iota.
  assert (Hcyc : ∀ w0, files w0 = <[SERVER_RESTART:="True"]> f →
            immovable w0 = im →
            ∃ q f' l, run (cycle_logfile settings (SERVER_LOGFILE settings)) w0
                      = (Raise (OSError q), evolve w0 f' (PathExists (SERVER_LOGFILE settings) :: l))
              ∧ (q = (SERVER_LOGFILE settings) ∨ q = (SERVER_LOGFILE settings) +:+ ".old")
              ∧ forallb (rotation_effect [(SERVER_LOGFILE settings); (SERVER_LOGFILE settings) +:+ ".old"]) l = true
              ∧ f' !! SERVER_RESTART = Some "True").
  { intros w0 Hf0 Him0.
    destruct (cycle_logfile_fails settings (SERVER_LOGFILE settings) c w0)
      as (q & f' & l & Hrun & Hq & Hl & Hframe).
    - rewrite Hf0. by rewrite lookup_insert_ne.
    - by rewrite Him0.
    - exists q, f', l. split; [done|]. split; [done|]. split; [done|].
      rewrite Hframe by done. rewrite Hf0. apply lookup_insert_eq. }
  destruct (iserver options); rewrite ?py_del_third; cbn [index_or_raise];
    mrun;
    match goal with |- context [run (cycle_logfile _ _) ?w0] =>
      destruct (Hcyc w0 eq_refl eq_refl) as (q & f' & l & -> & Hq & Hl & Hflag)
    end;
    cbn [fst snd files evolve threads emit out with_immovable fresh_world];
    (split; [destruct Hq as [-> | ->]; auto|]);
    (split; [done|]); (split; [done|]);
    unfold pid_probe; destruct (f !! SERVER_PIDFILE); cbn;
    rewrite ?forallb_app; cbn;
    by rewrite (rotation_effect_no_launch _ _ Hl).
Qed.

Lemma rotation_failure_aborts_main_witness :
  let f : gmap string string := {[ "logs/server.log" := "new";
                                   "logs/server.log.old" := "old" ]} in
  let r := run (main sample_settings default_options ["start"] [])
               (with_immovable {[ "logs/server.log.old" ]}
                  (fresh_world f ∅ None)) in
  (r.1 = Raise (OSError "logs/server.log")
   ∨ r.1 = Raise (OSError "logs/server.log.old"))
  ∧ files r.2 !! SERVER_RESTART = Some "True"
  ∧ threads r.2 = []
  ∧ forallb (λ e, negb (launches e)) (out r.2) = true.
Proof.
  intros f.
  apply (rotation_failure_aborts_main sample_settings default_options
           ["start"] [] f ∅ {[ "logs/server.log.old" ]} None "new");
    try reflexivity; try (by vm_compute); set_solver.
Defined.


(** ** What [main] hands to [start_services] *)

Lemma reload_loop_first_popen sargv pargv (a : arrival) (sched : list arrival)
  (rc : Z) (w : world) :
  queue w = [] → who a ∈ threads w → outcome a = Exited rc →
  ∃ l, out (run (reload_loop sargv pargv (a :: sched)) w).2
       = out w ++ InThread (who a) (Popen (waiter_argv sargv pargv (who a))) :: l.
Proof.
  intros Hq Hin Ho.
  rewrite (reload_loop_event sargv pargv a sched rc w Hq Hin Ho). cbv zeta.
  match goal with |- context [run (reload_iteration _ _) ?w0] =>
    destruct (reload_iteration_summary (who a) rc w0)
      as (fl & w1 & l1 & -> & Ho1 & _ & _ & _ & _ & Hq1)
  end.
  cbn [queue out] in Ho1, Hq1.
  destruct fl.
  - destruct (reload_loop_out sargv pargv sched w1 Hq1) as (l2 & ->).
    rewrite Ho1. eexists. rewrite <- !app_assoc. cbn [app]. reflexivity.
  - cbn [snd]. rewrite Ho1. eexists. rewrite <- !app_assoc. cbn [app].
    reflexivity.
Qed.

(** X11. What [main] hands to [start_services] when it starts both processes
    (none disabled, no pid record, both flags writable, and neither the
    Portal pid file nor the flag files among the rotated logs).  The Server
    argv has lost its [--logfile] option under [--iserver]; on Windows both
    argvs have lost their [--pidfile] option, in every combination of the
    options.  The flags are set afresh, whatever they held:
    [server.restart] reads True and [portal.restart] reads True exactly
    under [--iportal].  Until then nothing was started: the log holds the
    two pid probes, flag writes, announcements and rotations.  And the
    argv so fixed is the one [Popen] receives in the Server waiter. *)
Theorem main_hands_over settings (options : Options)
  (args : list string) (sched : list arrival)
  (f : gmap string string) (ro : gset string) (de : option exn) :
  let nt := bool_decide (os_name settings = "nt") in
  let http := strip (HTTP_LOG_FILE settings) in
  let slog := SERVER_LOGFILE settings in
  let plog := PORTAL_LOGFILE settings in
  let logs := rotation_paths settings slog ++ rotation_paths settings plog in
  let flag := str_bool (iportal options) in
  let sargv := [TWISTED_BINARY settings; "--nodaemon"]
               ++ (if iserver options then [] else ["--logfile=" +:+ slog])
               ++ (if nt then [] else ["--pidfile=" +:+ SERVER_PIDFILE])
               ++ ["--python=" +:+ SERVER_PY_FILE settings] in
  let pargv := [TWISTED_BINARY settings;
                if iportal options then "--nodaemon"
                else "--logfile=" +:+ plog]
               ++ (if nt then [] else ["--pidfile=" +:+ PORTAL_PIDFILE])
               ++ ["--python=" +:+ PORTAL_PY_FILE settings] in
  let w := fresh_world f ro de in
  args !! 0%nat = Some "start" →
  noserver options = false → noportal options = false →
  truthy_str (f !! SERVER_PIDFILE) = false →
  truthy_str (f !! PORTAL_PIDFILE) = false →
  SERVER_RESTART ∉ ro → PORTAL_RESTART ∉ ro →
  PORTAL_PIDFILE ∉ logs → SERVER_RESTART ∉ logs → PORTAL_RESTART ∉ logs →
  ∃ l1 l2,
    let w' :=
      evolve w
        (rotate_spec http (rotate_spec plog (<[PORTAL_RESTART:=flag]>
           (rotate_spec http (rotate_spec slog
              (<[SERVER_RESTART:="True"]> f))))))
        (pid_probe SERVER_PIDFILE f
         ++ [WriteFile SERVER_RESTART "True";
             Print (server_start_message options); PathExists slog] ++ l1
         ++ pid_probe PORTAL_PIDFILE f
         ++ [WriteFile PORTAL_RESTART flag;
             Print (portal_start_message options); PathExists plog] ++ l2) in
    forallb (rotation_effect (rotation_paths settings slog)) l1 = true
    ∧ forallb (rotation_effect (rotation_paths settings plog)) l2 = true
    ∧ run (main settings options args sched) w
      = run (start_services (Some sargv) (Some pargv) sched) w'
    ∧ files w' !! SERVER_RESTART = Some "True"
    ∧ files w' !! PORTAL_RESTART = Some flag
    ∧ (∀ a sched' rc,
         sched = a :: sched' → who a = server_waiter → outcome a = Exited rc →
         iportal options = true ∨ de = None →
         InThread server_waiter (Popen (Some sargv))
         ∈ out (run (main settings options args sched) w).2).
Proof.
  intros nt http slog plog logs flag sargv pargv w
    Hstart Hns Hnp Hsp Hpp Hsr Hpr Hlp Hls Hlq.
  subst logs http slog plog flag.
  apply not_elem_of_app in Hlp as [Hlp1 Hlp2].
  apply not_elem_of_app in Hls as [Hls1 Hls2].
  apply not_elem_of_app in Hlq as [Hlq1 Hlq2].
  assert (Hmain : ∃ l1 l2,
    forallb (rotation_effect (rotation_paths settings (SERVER_LOGFILE settings))) l1 = true
    ∧ forallb (rotation_effect (rotation_paths settings (PORTAL_LOGFILE settings))) l2 = true
    ∧ run (main settings options args sched) w
      = run (start_services (Some sargv) (Some pargv) sched)
          (evolve w
             (rotate_spec (strip (HTTP_LOG_FILE settings)) (rotate_spec (PORTAL_LOGFILE settings) (<[PORTAL_RESTART:=(str_bool (iportal options))]>
                (rotate_spec (strip (HTTP_LOG_FILE settings)) (rotate_spec (SERVER_LOGFILE settings)
                   (<[SERVER_RESTART:="True"]> f))))))
             (pid_probe SERVER_PIDFILE f
              ++ [WriteFile SERVER_RESTART "True";
                  Print (server_start_message options); PathExists (SERVER_LOGFILE settings)] ++ l1
              ++ pid_probe PORTAL_PIDFILE f
              ++ [WriteFile PORTAL_RESTART (str_bool (iportal options));
                  Print (portal_start_message options); PathExists (PORTAL_LOGFILE settings)]
              ++ l2))).
  { rewrite main_as_blocks by done. rewrite run_bind.
    pose proof (main_server_run settings options w eq_refl) as H.
    cbv zeta in H.
    cbn [files w fresh_world unwritable] in H. rewrite Hsp, Hns in H.
    cbn [andb] in H.
    rewrite (bool_decide_eq_false_2 (SERVER_RESTART ∈ ro)) in H by done.
    destruct H as (l1 & -> & Hl1).
    unfold main_after_server. rewrite run_bind.
    match goal with |- context [run (main_portal _ _) ?x] => set (w1 := x) end.
    assert (Hf1 : files w1 !! PORTAL_PIDFILE = f !! PORTAL_PIDFILE).
    { cbn. rewrite rotate_spec_twice_frame by done.
      by rewrite lookup_insert_ne. }
    pose proof (main_portal_run settings options w1 eq_refl) as H.
    cbv zeta in H. unfold pid_probe in H.
    rewrite Hf1, Hpp, Hnp in H. cbn [andb] in H.
    change (unwritable w1) with ro in H.
    rewrite (bool_decide_eq_false_2 (PORTAL_RESTART ∈ ro)) in H by done.
    destruct H as (l2 & -> & Hl2).
    rewrite run_bind.
    match goal with
    |- context [run (windows_fix _ (Some (server_argv_of _ _))) ?x] =>
      destruct (windows_fix_drops_pidfile settings options x) as [-> Hwp];
      rewrite run_bind, Hwp
    end.
    exists l1, l2. split; [exact Hl1|]. split; [exact Hl2|].
    subst w1. rewrite evolve_evolve. cbn [files evolve].
    unfold pid_probe. rewrite <- !app_assoc. reflexivity. }
  destruct Hmain as (l1 & l2 & Hl1 & Hl2 & Hrun).
  exists l1, l2. cbv zeta. split; [exact Hl1|]. split; [exact Hl2|].
  split; [exact Hrun|].
  assert (Hfs : rotate_spec (strip (HTTP_LOG_FILE settings)) (rotate_spec (PORTAL_LOGFILE settings) (<[PORTAL_RESTART:=(str_bool (iportal options))]>
                  (rotate_spec (strip (HTTP_LOG_FILE settings)) (rotate_spec (SERVER_LOGFILE settings)
                     (<[SERVER_RESTART:="True"]> f))))) !! SERVER_RESTART
                = Some "True").
  { rewrite rotate_spec_twice_frame by done.
    rewrite lookup_insert_ne by done.
    rewrite rotate_spec_twice_frame by done. apply lookup_insert_eq. }
  assert (Hfp : rotate_spec (strip (HTTP_LOG_FILE settings)) (rotate_spec (PORTAL_LOGFILE settings) (<[PORTAL_RESTART:=(str_bool (iportal options))]>
                  (rotate_spec (strip (HTTP_LOG_FILE settings)) (rotate_spec (SERVER_LOGFILE settings)
                     (<[SERVER_RESTART:="True"]> f))))) !! PORTAL_RESTART
                = Some (str_bool (iportal options))).
  { rewrite rotate_spec_twice_frame by done. apply lookup_insert_eq. }
  cbn [files evolve]. split; [exact Hfs|]. split; [exact Hfp|].
  intros a sched' rc -> Hwho Ho Hmode. rewrite Hrun.
  assert (Hts : truthy_list (Some sargv) = true) by reflexivity.
  assert (Htp : truthy_list (Some pargv) = true) by reflexivity.
  unfold start_services. rewrite Hts, Htp. cbn [when]. mrun.
  cbn [files emit evolve with_SERVER with_threads with_queue]. rewrite Hfp.
  assert (Hin : ∀ (l : list effect) x y, x ∈ l ++ x :: y).
  { intros l x y. apply elem_of_app. right. apply list_elem_of_here. }
  destruct Hmode as [Hip|Hde].
  - rewrite Hip. cbn [str_bool].
    rewrite bool_decide_eq_true_2 by done. mrun.
    match goal with |- context [run (reload_loop ?s ?p _) ?w1] =>
      destruct (reload_loop_first_popen s p a sched' rc w1) as (l & ->);
        [reflexivity | rewrite Hwho; cbn; set_solver | done |]
    end.
    rewrite Hwho. apply Hin.
  - destruct (bool_decide (Some (str_bool (iportal options)) = Some "True")); mrun.
    + match goal with |- context [run (reload_loop ?s ?p _) ?w1] =>
        destruct (reload_loop_first_popen s p a sched' rc w1) as (l & ->);
          [reflexivity | rewrite Hwho; cbn; set_solver | done |]
      end.
      rewrite Hwho. apply Hin.
    + cbn [daemon_error emit evolve with_SERVER with_threads with_queue w
           fresh_world].
      rewrite Hde. mrun.
      cbn [SERVER with_PORTAL with_SERVER with_threads with_queue emit evolve].
      rewrite bool_decide_eq_true_2 by (by eexists).
      match goal with |- context [run (reload_loop ?s ?p _) ?w1] =>
        destruct (reload_loop_first_popen s p a sched' rc w1) as (l & ->);
          [reflexivity | rewrite Hwho; cbn; set_solver | done |]
      end.
      rewrite Hwho. apply Hin.
Qed.

Lemma main_hands_over_witness :
  let settings := {| SRC_DIR := "C:/evennia/src";
                     SERVER_LOG_FILE := "logs/server.log";
                     PORTAL_LOG_FILE := "logs/portal.log";
                     HTTP_LOG_FILE := "logs/http_requests.log";
                     os_name := "nt";
                     os_path_join := λ a b, a +:+ "/" +:+ b |} in
  let options := {| noserver := false; noportal := false;
                    iserver := true; iportal := false |} in
  let sched := [Arrival server_waiter (Exited 1) []] in
  let w := fresh_world {[ "server.restart" := "False" ]} ∅ None in
  InThread server_waiter
    (Popen (Some ["twistd.bat"; "--nodaemon";
                  "--python=C:/evennia/src/server/server.py"]))
  ∈ out (run (main settings options ["start"] sched) w).2.
Proof.
  intros settings options sched w.
  assert (Hnot : ∀ (p : string) (l : list string),
            bool_decide (p ∈ l) = false → p ∉ l)
    by (intros p l; apply bool_decide_eq_false).
  destruct (main_hands_over settings options ["start"] sched
              {[ "server.restart" := "False" ]} ∅ None)
    as (l1 & l2 & _ & _ & _ & _ & _ & H);
    [ reflexivity | reflexivity | reflexivity | by vm_compute | by vm_compute
    | apply not_elem_of_empty | apply not_elem_of_empty
    | apply Hnot; by vm_compute | apply Hnot; by vm_compute
    | apply Hnot; by vm_compute | ].
  apply (H (Arrival server_waiter (Exited 1) []) [] 1);
    [reflexivity | reflexivity | reflexivity | by right].
Defined.




End Runner.
